(** * supplier-matcher: knowledge base and hybrid retrieval

    A shallow embedding of [knowledge_base.py] (the FAISS-backed supplier
    store) and [hybrid_search.py] (local-first search with a web
    supplement), together with the properties of the design document that
    concern them.

    Modelling conventions.
    - A Python [dict] with string keys is a [gmap string value]; the values
      that occur in supplier dictionaries are [None], strings, integers,
      floats and nested dictionaries.
    - Python floats (and numpy's float32) are idealised as real numbers:
      [np.exp] is [exp], [round(x, 3)] is rounding half-to-even at the third
      decimal.
    - Python strings are byte strings in UTF-8; [str.lower] is modelled on
      the ASCII range.
    - Code that can raise returns a [result]; a [try]/[except Exception]
      block is a [match] on it, and every mutation performed before the
      exception is kept, as it is in the source.
    - The embedding provider, the web search adapter, float formatting and
      the clock are collaborators outside the repository; they are the
      fields of an [Env]. *)

From Stdlib Require Import Reals Lra.
From stdpp Require Import gmap strings list pretty sorting.

Set Warnings "-register-all".

Open Scope Z_scope.

(** ** Python values and exceptions *)

Inductive value :=
  | VNone
  | VStr (s : string)
  | VInt (z : Z)
  | VFloat (r : R)
  | VDict (d : gmap string value).

Abbreviation Dict := (gmap string value).

Inductive exn :=
  | AttributeError
  | KeyError
  | TypeError
  | IndexError
  | AssertionError
  | OSError
  | ProviderError.

Inductive result (A : Type) :=
  | Ok (a : A)
  | Raise (e : exn).
Arguments Ok {A} a.
Arguments Raise {A} e.

#[global] Instance result_ret : MRet result := λ A a, Ok a.

#[global] Instance result_bind : MBind result := λ A B k r,
  match r with
  | Ok a => k a
  | Raise e => Raise e
  end.

(** [d.get(k, dflt)] *)
Definition get (d : Dict) (k : string) (dflt : value) : value :=
  default dflt (d !! k).

(** [d[k]] *)
Definition getitem (d : Dict) (k : string) : result value :=
  match d !! k with
  | Some v => Ok v
  | None => Raise KeyError
  end.

(** Truthiness, as tested by [if x:] and by a list comprehension filter. *)
Definition truthy (v : value) : bool :=
  match v with
  | VNone => false
  | VStr s => negb (String.eqb s "")
  | VInt z => negb (z =? 0)
  | VFloat r => if Req_dec_T r 0 then false else true
  | VDict d => negb (bool_decide (d = ∅))
  end.

(** [l[:n]] on a list: a negative [n] counts from the end. *)
Definition slice_to {A} (n : Z) (l : list A) : list A :=
  if 0 <=? n then take (Z.to_nat n) l
  else take (Z.to_nat (Z.of_nat (length l) + n)) l.

(** [l[i]] on a list: a negative [i] counts from the end. *)
Definition list_getitem {A} (l : list A) (i : Z) : result A :=
  let j := if 0 <=? i then i else Z.of_nat (length l) + i in
  if 0 <=? j then
    match l !! Z.to_nat j with
    | Some a => Ok a
    | None => Raise IndexError
    end
  else Raise IndexError.

(** [s[:n]] on a value: only strings can be sliced. *)
Definition str_slice (v : value) : result unit :=
  match v with
  | VStr _ => Ok ()
  | _ => Raise TypeError
  end.

Definition nl : string := String (Ascii.ascii_of_nat 10) EmptyString.

(** [str.lower], ASCII range. *)
Definition lower_ascii (c : Ascii.ascii) : Ascii.ascii :=
  let n := Ascii.nat_of_ascii c in
  if ((65 <=? n) && (n <=? 90))%nat then Ascii.ascii_of_nat (n + 32) else c.

Fixpoint lower (s : string) : string :=
  match s with
  | EmptyString => EmptyString
  | String c s' => String (lower_ascii c) (lower s')
  end.

(** [v.lower()] on a value: only strings have the method. *)
Definition value_lower (v : value) : result string :=
  match v with
  | VStr s => Ok (lower s)
  | _ => Raise AttributeError
  end.

(** ** Floats as reals *)

Open Scope R_scope.

(** Rounding to the nearest integer, ties to even. *)
Definition round_half_even (x : R) : Z :=
  let n := Int_part x in
  let f := frac_part x in
  if Rlt_dec f (1 / 2) then n
  else if Rlt_dec (1 / 2) f then (n + 1)%Z
  else if Z.even n then n else (n + 1)%Z.

(** [round(x, 3)] *)
Definition round3 (x : R) : R := IZR (round_half_even (x * 1000)) / 1000.

(** The distance FAISS reports next to the label [-1], for a missing
    neighbour: the largest float32. *)
Definition flt_max : R := 340282346638528859811704183484516925440.

Close Scope R_scope.

(** ** Collaborators *)

Abbreviation Vector := (list R).

Record Env := {
  (** [GoogleGenerativeAIEmbeddings.embed_query] *)
  embed_query : string → result Vector;
  (** [search_tool.create_google_search_tool] *)
  create_google_search_tool : Dict → result (list Dict);
  (** [str(v)] for a float or a dictionary *)
  str_other : value → string;
  (** [f"{x:.2f}"] *)
  fmt_2f : R → string;
  (** [datetime.now().strftime("%Y-%m-%d")] *)
  today : string
}.

(** ** The FAISS flat L2 index

    [faiss.IndexFlatL2] keeps the vectors in insertion order; [search]
    reports squared Euclidean distances, nearest first, with the ordinal of
    each vector as its label.  Ties are listed by ordinal. *)

Record Index := {
  dim : nat;
  vectors : list Vector
}.

Definition ntotal (ix : Index) : nat := length (vectors ix).

Definition IndexFlatL2 (d : nat) : Index := {| dim := d; vectors := [] |}.

(** [index.add(x)]: every row must have the dimension of the index. *)
Definition index_add (ix : Index) (xs : list Vector) : result Index :=
  if forallb (λ x, length x =? dim ix)%nat xs
  then Ok {| dim := dim ix; vectors := vectors ix ++ xs |}
  else Raise AssertionError.

Fixpoint l2sq (x y : Vector) : R :=
  match x, y with
  | a :: x', b :: y' => ((a - b) * (a - b) + l2sq x' y')%R
  | _, _ => 0%R
  end.

Fixpoint insert_hit (p : R * Z) (l : list (R * Z)) : list (R * Z) :=
  match l with
  | [] => [p]
  | q :: l' =>
      if Rlt_dec (fst q) (fst p) then q :: insert_hit p l' else p :: l
  end.

Definition sort_hits (l : list (R * Z)) : list (R * Z) :=
  foldr insert_hit [] l.

(** [index.search(x, k)] for a single query row. *)
Definition index_search (ix : Index) (x : Vector) (k : Z)
  : result (list (R * Z)) :=
  if negb (length x =? dim ix)%nat then Raise AssertionError
  else if k <=? 0 then Raise AssertionError
  else
    let scored := imap (λ i v, (l2sq x v, Z.of_nat i)) (vectors ix) in
    let nearest := take (Z.to_nat k) (sort_hits scored) in
    Ok (nearest ++ replicate (Z.to_nat k - length nearest) (flt_max, -1)).

(** ** The persisted artefacts *)

Inductive file (A : Type) :=
  | Absent
  | Unreadable
  | Stored (a : A).
Arguments Absent {A}.
Arguments Unreadable {A}.
Arguments Stored {A} a.

Record Disk := {
  index_file : file Index;
  metadata_file : file (list Dict)
}.

(** What happens to one call of [_save_index]: both files are written, or
    the first write fails, or the second one does; a failed write leaves its
    file untouched ([partial = false]) or truncated ([partial = true]). *)
Inductive write_outcome :=
  | WriteOk
  | IndexWriteFails (partial : bool)
  | MetadataWriteFails (partial : bool).

Record KB := {
  index : Index;
  suppliers : list Dict
}.

Section KnowledgeBase.

Variable E : Env.

(** [str(v)], as an f-string renders a field. *)
Definition py_str (v : value) : string :=
  match v with
  | VNone => "None"
  | VStr s => s
  | VInt z => pretty z
  | _ => str_other E v
  end.

Definition _load_or_create_index (disk : Disk) : result KB :=
  match index_file disk, metadata_file disk with
  | Absent, _ | _, Absent =>
      Ok {| index := IndexFlatL2 768; suppliers := [] |}
  | Unreadable, _ => Raise OSError
  | Stored ix, Unreadable => Raise OSError
  | Stored ix, Stored md => Ok {| index := ix; suppliers := md |}
  end.

Definition _save_index (kb : KB) (w : write_outcome) (disk : Disk) : Disk :=
  match w with
  | WriteOk =>
      {| index_file := Stored (index kb);
         metadata_file := Stored (suppliers kb) |}
  | IndexWriteFails partial =>
      {| index_file := if partial then Unreadable else index_file disk;
         metadata_file := metadata_file disk |}
  | MetadataWriteFails partial =>
      {| index_file := Stored (index kb);
         metadata_file := if partial then Unreadable else metadata_file disk |}
  end.

Definition _build_document_content (supplier : Dict) : string :=
  let company_name := get supplier "title" (VStr "") in
  let category := get supplier "category" (VStr "") in
  let snippet := get supplier "snippet" (VStr "") in
  let reason := get supplier "reason" (VStr "") in
  let match_type := get supplier "match_type" (VStr "") in
  let content_parts :=
    [ "公司名称: " +:+ py_str company_name;
      "类别: " +:+ py_str category;
      "类型: " +:+ py_str match_type;
      "描述: " +:+ py_str snippet;
      "评价: " +:+ py_str reason ] in
  String.concat nl (List.filter (λ p, truthy (VStr p)) content_parts).

(** [contact.get(k, dflt)]: only a dictionary has the method. *)
Definition value_get (v : value) (k : string) (dflt : value) : result value :=
  match v with
  | VDict d => Ok (get d k dflt)
  | _ => Raise AttributeError
  end.

Definition _build_metadata (supplier : Dict) : result Dict :=
  let contact := get supplier "contact" (VDict ∅) in
  contact_person ← value_get contact "name" (VStr "");
  email ← value_get contact "email" (VStr "");
  phone ← value_get contact "phone" (VStr "");
  linkedin ← value_get contact "linkedin" (VStr "");
  mret (list_to_map
    [ ("company_name", get supplier "title" (VStr "Unknown"));
      ("category", get supplier "category" (VStr "电子产品"));
      ("website", get supplier "link" (VStr ""));
      ("match_type", get supplier "match_type" (VStr ""));
      ("supplier_score", get supplier "score" (VInt 0));
      ("contact_person", contact_person);
      ("email", email);
      ("phone", phone);
      ("linkedin", linkedin);
      ("cooperation_status", VStr "未联系");
      ("add_date", VStr (today E));
      ("source", get supplier "source" (VStr "Google搜索")) ] : Dict).

(** The progress line [print(f"... {supplier.get('title', 'Unknown')[:50]}")]. *)
Definition print_title (supplier : Dict) : result unit :=
  str_slice (get supplier "title" (VStr "Unknown")).

(** [add_supplier]: the whole body is inside [try]; whatever was mutated
    before an exception stays mutated. *)
Definition add_supplier (supplier : Dict) (w : write_outcome)
    (st : KB * Disk) : KB * Disk * bool :=
  let '(kb, disk) := st in
  let content := _build_document_content supplier in
  match embed_query E content with
  | Raise _ => (kb, disk, false)
  | Ok embedding =>
      match index_add (index kb) [embedding] with
      | Raise _ => (kb, disk, false)
      | Ok ix =>
          let kb1 := {| index := ix; suppliers := suppliers kb |} in
          match _build_metadata supplier with
          | Raise _ => (kb1, disk, false)
          | Ok metadata =>
              let kb2 :=
                {| index := ix; suppliers := suppliers kb ++ [metadata] |} in
              match print_title supplier with
              | Raise _ => (kb2, disk, false)
              | Ok _ => (kb2, _save_index kb2 w disk, true)
              end
          end
      end
  end.

(** One iteration of the batch loop, on
    [(embeddings_to_add, metadata_to_add, success_count)]. *)
Definition batch_step (acc : list Vector * list Dict * Z) (supplier : Dict)
  : list Vector * list Dict * Z :=
  let '(embeddings_to_add, metadata_to_add, success_count) := acc in
  let content := _build_document_content supplier in
  match embed_query E content with
  | Raise _ => acc
  | Ok embedding =>
      let embeddings_to_add := embeddings_to_add ++ [embedding] in
      match _build_metadata supplier with
      | Raise _ => (embeddings_to_add, metadata_to_add, success_count)
      | Ok metadata =>
          let metadata_to_add := metadata_to_add ++ [metadata] in
          match print_title supplier with
          | Raise _ => (embeddings_to_add, metadata_to_add, success_count)
          | Ok _ => (embeddings_to_add, metadata_to_add, success_count + 1)
          end
      end
  end.

(** [add_suppliers_batch]: [index.add] is outside the per-item [try], so
    its exception reaches the caller. *)
Definition add_suppliers_batch (batch : list Dict) (w : write_outcome)
    (st : KB * Disk) : result (KB * Disk * Z) :=
  let '(kb, disk) := st in
  let '(embeddings_to_add, metadata_to_add, success_count) :=
    foldl batch_step ([], [], 0) batch in
  match embeddings_to_add with
  | [] => Ok (kb, disk, success_count)
  | _ =>
      ix ← index_add (index kb) embeddings_to_add;
      let kb' :=
        {| index := ix; suppliers := suppliers kb ++ metadata_to_add |} in
      Ok (kb', _save_index kb' w disk, success_count)
  end.

(** The copy of a record that [search_suppliers] returns. *)
Definition annotate (supplier : Dict) (similarity distance : R) : Dict :=
  <["distance" := VFloat (round3 distance)]>
    (<["similarity_score" := VFloat (round3 similarity)]> supplier).

Definition similarity_of (distance : R) : R := exp (- distance / 10).

(** The loop over [zip(distances[0], indices[0])]. *)
Fixpoint collect_results (records : list Dict) (min_similarity : R)
    (pairs : list (R * Z)) (results : list Dict) : result (list Dict) :=
  match pairs with
  | [] => Ok results
  | (distance, idx) :: rest =>
      if idx <? Z.of_nat (length records) then
        supplier ← list_getitem records idx;
        let similarity := similarity_of distance in
        let supplier := annotate supplier similarity distance in
        collect_results records min_similarity rest
          (if Rge_dec similarity min_similarity
           then results ++ [supplier] else results)
      else collect_results records min_similarity rest results
  end.

Definition search_suppliers_try (query : string) (k : Z) (min_similarity : R)
    (kb : KB) : result (list Dict) :=
  if (length (suppliers kb) =? 0)%nat then Ok []
  else
    query_embedding ← embed_query E query;
    pairs ← index_search (index kb) query_embedding
               (Z.min k (Z.of_nat (length (suppliers kb))));
    collect_results (suppliers kb) min_similarity pairs [].

(** [search_suppliers]: any exception of the body is turned into [[]]. *)
Definition search_suppliers (query : string) (k : Z) (min_similarity : R)
    (kb : KB) : list Dict :=
  match search_suppliers_try query k min_similarity kb with
  | Ok results => results
  | Raise _ => []
  end.

End KnowledgeBase.

(** ** The hybrid search engine *)

Fixpoint filterM {A} (p : A → result bool) (l : list A) : result (list A) :=
  match l with
  | [] => Ok []
  | a :: l' =>
      keep ← p a;
      kept ← filterM p l';
      mret (if keep : bool then a :: kept else kept)
  end.

(** [v >= x] for a float [x]: defined on numbers only. *)
Definition value_ge (v : value) (x : R) : result bool :=
  match v with
  | VFloat r => Ok (if Rge_dec r x then true else false)
  | VInt z => Ok (if Rge_dec (IZR z) x then true else false)
  | _ => Raise TypeError
  end.

(** [v == s] for a string [s]. *)
Definition value_eq_str (v : value) (s : string) : bool :=
  match v with
  | VStr s' => String.eqb s' s
  | _ => false
  end.

(** [sep.join(parts)]: every part must be a string. *)
Definition str_join (sep : string) (parts : list value) : result string :=
  strs ← mapM (λ v, match v with
                    | VStr s => Ok s
                    | _ => Raise TypeError
                    end) parts;
  mret (String.concat sep strs).

Record Stats := {
  local_count : Z;
  google_count : Z;
  total_count : Z;
  sources_local : Z;
  sources_google : Z
}.

Section HybridSearch.

Variable E : Env.

(** [f"{v:.2f}"]: defined on numbers only. *)
Definition format_2f (v : value) : result string :=
  match v with
  | VFloat r => Ok (fmt_2f E r)
  | VInt z => Ok (fmt_2f E (IZR z))
  | _ => Raise TypeError
  end.

Definition _build_search_query (product_info : Dict) : result string :=
  let product_name := get product_info "产品名称" (VStr "") in
  let category := get product_info "产品类别" (VStr "") in
  let specs := get product_info "核心规格" (VStr "") in
  let query_parts :=
    (if truthy product_name then [product_name] else [])
    ++ (if truthy category then [category] else [])
    ++ (if truthy specs then [specs] else []) in
  query ← str_join " " query_parts;
  mret (if truthy (VStr query) then query else "制造商 供应商").

(** The lines printed for one of the first three local matches. *)
Definition print_local_match (supplier : Dict) : result unit :=
  company_name ← getitem supplier "company_name";
  _ ← str_slice company_name;
  similarity ← getitem supplier "similarity_score";
  _ ← format_2f similarity;
  _ ← getitem supplier "cooperation_status";
  mret ().

(** [_search_local]: [search_suppliers] is called with [k] only, so its own
    default threshold [0.5] applies before the caller's one. *)
Definition _search_local (product_info : Dict) (k : Z) (min_similarity : R)
    (kb : KB) : result (list Dict) :=
  query ← _build_search_query product_info;
  let results := search_suppliers E query k (1 / 2)%R kb in
  filtered_results ←
    filterM (λ r, value_ge (get r "similarity_score" (VInt 0)) min_similarity)
            results;
  _ ← mapM print_local_match (take 3 filtered_results);
  mret filtered_results.

Definition tag_google (r : Dict) : Dict :=
  <["similarity_score" := VNone]> (<["source" := VStr "Google搜索"]> r).

Definition _search_google (product_info : Dict) (k : Z) : result (list Dict) :=
  google_results ← create_google_search_tool E product_info;
  mret (slice_to k (tag_google <$> google_results)).

(** The candidate built from a local record in [_merge_results]. *)
Definition local_candidate (supplier : Dict) : result Dict :=
  shown ← format_2f (get supplier "similarity_score" (VInt 0));
  mret (list_to_map
    [ ("title", get supplier "company_name" VNone);
      ("link", get supplier "website" VNone);
      ("match_type", get supplier "match_type" VNone);
      ("score", get supplier "score" (VInt 0));
      ("reason", VStr ("本地知识库匹配（相似度: " +:+ shown +:+ "）"));
      ("contact", VDict (list_to_map
         [ ("name", get supplier "contact_person" (VStr ""));
           ("email", get supplier "email" (VStr ""));
           ("phone", get supplier "phone" (VStr "")) ]));
      ("source", VStr "本地知识库");
      ("cooperation_status", get supplier "cooperation_status" VNone);
      ("similarity_score", get supplier "similarity_score" VNone) ] : Dict).

(** [r["title"].lower()] *)
Definition title_lower (r : Dict) : result string :=
  title ← getitem r "title";
  value_lower title.

(** The loop over [google_results], with its [continue] and [break]. *)
Fixpoint merge_google (target_count : Z) (google_results : list Dict)
    (merged : list Dict) (existing_companies : gset string)
  : result (list Dict) :=
  match google_results with
  | [] => Ok merged
  | supplier :: rest =>
      company_name ← value_lower (get supplier "title" (VStr ""));
      if decide (company_name ∈ existing_companies) then
        _ ← str_slice (get supplier "title" VNone);
        merge_google target_count rest merged existing_companies
      else
        let merged := merged ++ [supplier] in
        let existing_companies := {[company_name]} ∪ existing_companies in
        if Z.of_nat (length merged) >=? target_count then Ok merged
        else merge_google target_count rest merged existing_companies
  end.

Definition _merge_results (local_results google_results : list Dict)
    (target_count : Z) : result (list Dict) :=
  merged ← mapM local_candidate local_results;
  names ← mapM title_lower merged;
  merged ← merge_google target_count google_results merged (list_to_set names);
  mret (slice_to target_count merged).

(** [search]: the first component lists the calls made to the web search
    adapter, the second is what the caller receives. *)
Definition search (product_info : Dict) (local_k google_k : Z)
    (min_similarity : R) (kb : KB)
  : list Dict * result (list Dict * Stats) :=
  match _search_local product_info local_k min_similarity kb with
  | Raise e => ([], Raise e)
  | Ok local_results =>
      let '(calls, fetched) :=
        if Z.of_nat (length local_results) <? google_k
        then ([product_info], _search_google product_info google_k)
        else ([], Ok []) in
      (calls,
       google_results ← fetched;
       merged_results ← _merge_results local_results google_results google_k;
       mret (merged_results,
             {| local_count := Z.of_nat (length local_results);
                google_count := Z.of_nat (length google_results);
                total_count := Z.of_nat (length merged_results);
                sources_local := Z.of_nat (length local_results);
                sources_google :=
                  Z.of_nat (length (List.filter
                    (λ r, value_eq_str (get r "source" VNone) "Google搜索")
                    merged_results)) |}))
  end.

End HybridSearch.

(** ** Vocabulary of the design document *)

(** The lock-step invariant of the data model: as many records as vectors. *)
Definition lockstep (kb : KB) : Prop :=
  length (suppliers kb) = ntotal (index kb).

(** A dictionary holds a string under [k]. *)
Definition has_str (k : string) (r : Dict) : Prop :=
  ∃ s, r !! k = Some (VStr s).

(** The case-insensitive company-name key of a candidate. *)
Definition title_key (r : Dict) : string :=
  match get r "title" (VStr "") with
  | VStr s => lower s
  | _ => ""
  end.

(** The web candidates that survive deduplication against the names in
    [seen], in their received order and without any cap. *)
Fixpoint dedup_new (seen : gset string) (ws : list Dict) : list Dict :=
  match ws with
  | [] => []
  | w :: ws' =>
      if decide (title_key w ∈ seen) then dedup_new seen ws'
      else w :: dedup_new ({[title_key w]} ∪ seen) ws'
  end.

(** The document text as the design document words it: one labelled line
    per field, a line being left out when the field's value is empty. *)
Definition labelled_lines_of_nonempty_fields (supplier : Dict) : string :=
  let line label key :=
    match get supplier key (VStr "") with
    | VStr "" => []
    | VStr s => [label +:+ s]
    | _ => []
    end in
  String.concat nl
    (line "公司名称: " "title" ++ line "类别: " "category"
     ++ line "类型: " "match_type" ++ line "描述: " "snippet"
     ++ line "评价: " "reason").

(** Ascending distance, on the [(distance, label)] pairs of a search. *)
Definition hit_le (p q : R * Z) : Prop := (p.1 <= q.1)%R.


(** The store after one more vector and its record have been appended. *)
Definition appended (kb : KB) (x : Vector) (metadata : Dict) : KB :=
  {| index := {| dim := dim (index kb); vectors := vectors (index kb) ++ [x] |};
     suppliers := suppliers kb ++ [metadata] |}.

(** The merged list as the design document describes it, under a cap: the
    local candidates, then the web candidates that survive deduplication,
    the whole cut at [cap] entries. *)
Definition merged_under_cap (cap : Z) (cands webs : list Dict) : list Dict :=
  take (Z.to_nat cap)
    (cands ++ dedup_new (list_to_set (title_key <$> cands)) webs).

(** A dictionary is a stored record with the two annotations of
    [search_suppliers]. *)
Definition annotated_from (records : list Dict) (r : Dict) : Prop :=
  ∃ supplier s d, supplier ∈ records ∧ r = annotate supplier s d.

(** ** Sample data *)

Definition zero_vec : Vector := replicate 768 0%R.

(** A query vector at squared distance [x * x] from [zero_vec]. *)
Definition axis_vec (x : R) : Vector := x :: replicate 767 0%R.

(** Collaborators that embed every text as [axis_vec x] and answer every
    web search with [web]. *)
Definition env_at (x : R) (web : list Dict) : Env :=
  {| embed_query := λ _, Ok (axis_vec x);
     create_google_search_tool := λ _, Ok web;
     str_other := λ _, "";
     fmt_2f := λ _, "";
     today := "2024-01-01" |}.

(** Collaborators whose embedding provider is unreachable. *)
Definition env_down : Env :=
  {| embed_query := λ _, Raise ProviderError;
     create_google_search_tool := λ _, Ok [];
     str_other := λ _, "";
     fmt_2f := λ _, "";
     today := "2024-01-01" |}.

Definition record_of (name : string) : Dict :=
  list_to_map
    [ ("company_name", VStr name);
      ("category", VStr "电子产品");
      ("website", VStr "");
      ("match_type", VStr "");
      ("supplier_score", VInt 0);
      ("contact_person", VStr "");
      ("email", VStr "");
      ("phone", VStr "");
      ("linkedin", VStr "");
      ("cooperation_status", VStr "未联系");
      ("add_date", VStr "2024-01-01");
      ("source", VStr "Google搜索") ].

(** A store in lock-step whose vectors are all [zero_vec]. *)
Definition store_of (records : list Dict) : KB :=
  {| index := {| dim := 768; vectors := replicate (length records) zero_vec |};
     suppliers := records |}.

Definition empty_store : KB :=
  {| index := IndexFlatL2 768; suppliers := [] |}.

Definition no_files : Disk :=
  {| index_file := Absent; metadata_file := Absent |}.

Definition web_hit (name : string) : Dict :=
  list_to_map [ ("title", VStr name); ("link", VStr ""); ("snippet", VStr "") ].

(** A supplier dictionary whose ["contact"] entry is [None]. *)
Definition supplier_without_contact (name : string) : Dict :=
  list_to_map [ ("title", VStr name); ("contact", VNone) ].

(** A supplier dictionary whose category is the empty string. *)
Definition supplier_without_category : Dict :=
  list_to_map
    [ ("title", VStr "Acme Co");
      ("category", VStr "");
      ("match_type", VStr "manufacturer");
      ("snippet", VStr "TWS headphone factory");
      ("reason", VStr "CE certified") ].

Definition sample_product : Dict :=
  list_to_map
    [ ("产品名称", VStr "Bluetooth Headphones");
      ("产品类别", VStr "Consumer Electronics") ].

(** Four stored suppliers, all at distance 0 from every query of
    [env_at 0]. *)
Definition four_suppliers : list Dict :=
  [ record_of "Acme Co"; record_of "Bolt Ltd";
    record_of "Cobalt Inc"; record_of "Delta LLC" ].

(** ** Statistics of the knowledge base *)

(** Keys of the counting dictionaries of [get_statistics].  A dictionary
    cannot be a key; an integer and a float that are equal are the same
    key. *)
Inductive pykey :=
  | KNone
  | KStr (s : string)
  | KNum (r : R).

#[global] Instance pykey_eq_dec : EqDecision pykey.
Proof.
  intros a b. unfold Decision.
  decide equality; [apply String.string_dec|apply Req_dec_T].
Defined.






(** ** Saving search results back *)

(** [HybridSearchEngine.save_to_knowledge_base] *)
Definition save_to_knowledge_base (E : Env) (candidates : list Dict)
    (w : write_outcome) (st : KB * Disk) : result (KB * Disk * Z) :=
  let new_suppliers :=
    List.filter (λ s, value_eq_str (get s "source" VNone) "Google搜索")
      candidates in
  match new_suppliers with
  | [] => Ok (st.1, st.2, 0)
  | _ => add_suppliers_batch E new_suppliers w st
  end.

(** ** Helpers of the web search tool *)

(** [str.isspace] on the ASCII range: the characters 9 to 13 and 28 to 32.
    White space outside ASCII, which [str.strip] removes as well, is not
    modelled. *)
Definition is_space (c : Ascii.ascii) : bool :=
  let n := Ascii.nat_of_ascii c in
  ((9 <=? n) && (n <=? 13) || (28 <=? n) && (n <=? 32))%nat.

Fixpoint lstrip (l : list Ascii.ascii) : list Ascii.ascii :=
  match l with
  | [] => []
  | c :: l' => if is_space c then lstrip l' else l
  end.

Definition rstrip (l : list Ascii.ascii) : list Ascii.ascii :=
  reverse (lstrip (reverse l)).

(** [s.strip()], on the characters of [s] *)
Definition strip (l : list Ascii.ascii) : list Ascii.ascii :=
  rstrip (lstrip l).

Definition fence : list Ascii.ascii := String.list_ascii_of_string "```".

Definition fence_json : list Ascii.ascii :=
  String.list_ascii_of_string "```json".

(** [search_tool._clean_json_response] *)
Definition _clean_json_response (content : string) : string :=
  let content := String.list_ascii_of_string content in
  let content :=
    if bool_decide (fence_json `prefix_of` content) then drop 7 content
    else if bool_decide (fence `prefix_of` content) then drop 3 content
    else content in
  let content :=
    if bool_decide (fence `suffix_of` content)
    then take (length content - 3) content
    else content in
  String.string_of_list_ascii (strip content).

(** The entries of [_fallback_ranking], from position [i] on. *)
Fixpoint fallback_from (i : Z) (suppliers : list Dict) : result (list Dict) :=
  match suppliers with
  | [] => Ok []
  | s :: rest =>
      title ← getitem s "title";
      link ← getitem s "link";
      entries ← fallback_from (i + 1) rest;
      mret ((list_to_map
               [ ("title", title);
                 ("link", link);
                 ("score", VInt (60 - i * 5));
                 ("reason", VStr "基于搜索排名");
                 ("match_type", VStr "待确认") ] : Dict) :: entries)
  end.

(** [search_tool._fallback_ranking] *)
Definition _fallback_ranking (suppliers : list Dict) : result (list Dict) :=
  fallback_from 0 (take 3 suppliers).

(** ** The contact check of the pipeline *)





(** ** Further vocabulary and sample data *)


(** The vector an item of a batch is embedded as, if the provider answers. *)
Definition embedded (E : Env) (supplier : Dict) : option Vector :=
  match embed_query E (_build_document_content E supplier) with
  | Ok x => Some x
  | Raise _ => None
  end.


(** A supplier dictionary whose title is [None]. *)
Definition supplier_without_title : Dict :=
  list_to_map [ ("title", VNone); ("link", VStr "") ].

(** The files of a store written completely. *)
Definition files_of (kb : KB) : Disk :=
  {| index_file := Stored (index kb); metadata_file := Stored (suppliers kb) |}.

(** The web results [search] passes to the merge: fetched, tagged and cut
    at [google_k] if the local results fall short, none otherwise. *)
Definition fetched_for (local web : list Dict) (google_k : Z) : list Dict :=
  if Z.of_nat (length local) <? google_k
  then take (Z.to_nat google_k) (tag_google <$> web) else [].

(** A candidate carries the tag of the web search. *)
Definition is_google (r : Dict) : bool :=
  value_eq_str (get r "source" VNone) "Google搜索".

(** The source annotation of a merged candidate: local with a float
    similarity, or web with none. *)
Definition tagged_candidate (c : Dict) : Prop :=
  (c !! "source" = Some (VStr "本地知识库")
   ∧ ∃ r, c !! "similarity_score" = Some (VFloat r))
  ∨ (c !! "source" = Some (VStr "Google搜索")
     ∧ c !! "similarity_score" = Some VNone).

(** A candidate as the merge builds it from a local record, reduced to
    the entries that matter for saving. *)
Definition local_hit (name : string) : Dict :=
  list_to_map [ ("title", VStr name); ("source", VStr "本地知识库") ].

(** The store after the vectors and records of [xms] have been appended. *)
Definition appended_all (kb : KB) (xms : list (Vector * Dict)) : KB :=
  {| index := {| dim := dim (index kb);
                 vectors := vectors (index kb) ++ xms.*1 |};
     suppliers := suppliers kb ++ xms.*2 |}.

(** An item of a batch that is embedded as [xm.1], with the dimension of
    the store, and recorded as [xm.2] without any failure. *)
Definition embeds_as (E : Env) (kb : KB) (s : Dict) (xm : Vector * Dict)
  : Prop :=
  embed_query E (_build_document_content E s) = Ok xm.1
  ∧ length xm.1 = dim (index kb)
  ∧ _build_metadata E s = Ok xm.2
  ∧ print_title s = Ok ().

(** A text has no white space at either end. *)
Definition stripped (l : list Ascii.ascii) : Prop :=
  lstrip l = l ∧ rstrip l = l.

(** A supplier dictionary has no title or no link. *)
Definition lacks_title_or_link (s : Dict) : Prop :=
  s !! "title" = None ∨ s !! "link" = None.

(** A candidate whose contact has an electronic address. *)
Definition contacted_hit (name email : string) : Dict :=
  list_to_map
    [ ("title", VStr name);
      ("contact", VDict (list_to_map [ ("email", VStr email) ])) ].


(** * Properties *)

(** ** Facts about the real-number model of floats *)

Section RealFacts.
Open Scope R_scope.




Lemma round_half_even_between (x : R) (n m : Z) :
  IZR n <= x <= IZR m → (n ≤ round_half_even x ≤ m)%Z.
Proof.
  intros [Hn Hm]. unfold round_half_even.
  destruct (base_Int_part x) as [Hlo Hhi].
  pose proof (Rplus_Int_part_frac_part x) as Hsplit.
  destruct (base_fp x) as [Hf0 Hf1].
  assert (n ≤ Int_part x)%Z as Hge.
  { apply Z.lt_succ_r. apply lt_IZR. rewrite succ_IZR. lra. }
  assert (Int_part x ≤ m)%Z as Hle by (apply le_IZR; lra).
  assert (Int_part x = m → frac_part x = 0) as Hm0.
  { intros Heq. rewrite Heq in Hsplit. lra. }
  destruct (Rlt_dec _ _); [lia|].
  destruct (Z.eq_dec (Int_part x) m) as [Heq|Hne].
  - specialize (Hm0 Heq). lra.
  - destruct (Rlt_dec _ _); [lia|]. destruct (Z.even _); lia.
Qed.





Lemma similarity_at_zero : similarity_of (0 * 0) = 1.
Proof.
  unfold similarity_of. replace (- (0 * 0) / 10) with 0 by lra. apply exp_0.
Qed.

Lemma round3_one : round3 1 = 1.
Proof.
  unfold round3.
  destruct (round_half_even_between (1 * 1000) 1000 1000) as [Hlo Hhi]; [lra|].
  replace (round_half_even (1 * 1000)) with 1000%Z by lia. lra.
Qed.


(** At squared distance 9 the similarity lies between the two thresholds
    0.3 and 0.5. *)
Lemma similarity_near : 3 / 10 <= similarity_of (3 * 3) < 1 / 2.
Proof.
  unfold similarity_of.
  replace (- (3 * 3) / 10) with (- (9 / 10)) by lra.
  rewrite exp_Ropp.
  assert (2 < exp (9 / 10)) as Hlo.
  { replace (9 / 10) with (9 / 20 + 9 / 20) by lra. rewrite exp_plus.
    assert (1 + 9 / 20 < exp (9 / 20)) as H by (apply exp_ineq1; lra).
    nra. }
  assert (exp (9 / 10) <= 3) as Hhi.
  { etrans; [|apply exp_le_3]. left. apply exp_increasing. lra. }
  split.
  - apply Rmult_le_reg_r with (exp (9 / 10)); [lra|].
    rewrite Rinv_l by lra. lra.
  - apply Rmult_lt_reg_r with (exp (9 / 10)); [lra|].
    rewrite Rinv_l by lra. lra.
Qed.

End RealFacts.

(** ** The result monad *)

Lemma mapM_Ok_length {A B} (f : A → result B) (l : list A) (k : list B) :
  mapM f l = Ok k → length k = length l.
Proof.
  revert k. induction l as [|a l IH]; intros k; simpl.
  - by intros [= <-].
  - destruct (f a) as [b|e]; simpl; [|done].
    destruct (mapM f l) as [bs|e]; simpl; [|done].
    intros [= <-]. simpl. f_equal. by apply IH.
Qed.

Lemma mapM_Ok_Forall2 {A B} (f : A → result B) (l : list A) (k : list B) :
  mapM f l = Ok k ↔ Forall2 (λ a b, f a = Ok b) l k.
Proof.
  revert k. induction l as [|a l IH]; intros k; simpl.
  - split; [intros [= <-]; constructor|by inversion 1].
  - split.
    + destruct (f a) as [b|e] eqn:Hfa; simpl; [|done].
      destruct (mapM f l) as [bs|e] eqn:Hl; simpl; [|done].
      intros [= <-]. constructor; [done|]. by apply IH.
    + inversion 1 as [|? b ? bs Hfa Hrest]; subst.
      rewrite Hfa. simpl. apply IH in Hrest. rewrite Hrest. done.
Qed.

(** ** The flat index *)

Lemma insert_hit_perm p l : insert_hit p l ≡ₚ p :: l.
Proof.
  induction l as [|q l IH]; simpl; [done|].
  destruct (Rlt_dec _ _); [|done].
  rewrite IH. apply Permutation_swap.
Qed.


Lemma sort_hits_perm l : sort_hits l ≡ₚ l.
Proof.
  induction l as [|p l IH]; simpl; [done|].
  by rewrite insert_hit_perm, IH.
Qed.


(** A list that is already in ascending order is left as it is. *)
Lemma sort_hits_id l : StronglySorted hit_le l → sort_hits l = l.
Proof.
  induction 1 as [|p l Hl IH Hp]; simpl; [done|].
  fold (sort_hits l). rewrite IH.
  destruct Hp as [|q l' Hq _]; simpl; [done|].
  destruct (Rlt_dec _ _) as [Hlt|]; [|done].
  unfold hit_le in Hq. lra.
Qed.

Lemma index_search_nearest ix x (k : Z) :
  length x = dim ix → 0 < k ≤ Z.of_nat (ntotal ix) →
  index_search ix x k =
    Ok (take (Z.to_nat k)
          (sort_hits (imap (λ i v, (l2sq x v, Z.of_nat i)) (vectors ix)))).
Proof.
  intros Hx [Hk0 Hk]. unfold index_search.
  rewrite Hx, Nat.eqb_refl. simpl.
  destruct (Z.leb_spec k 0); [lia|].
  rewrite length_take_le.
  - by rewrite Nat.sub_diag, app_nil_r.
  - rewrite sort_hits_perm, length_imap. unfold ntotal in Hk. lia.
Qed.



(** ** Searching the knowledge base *)

Lemma list_getitem_in_range {A} (l : list A) (i : Z) (a : A) :
  0 ≤ i → l !! Z.to_nat i = Some a → list_getitem l i = Ok a.
Proof.
  intros Hi Ha. unfold list_getitem.
  apply Z.leb_le in Hi. cbv zeta. by rewrite !Hi, Ha.
Qed.


Section KnowledgeBaseFacts.

Variable E : Env.



End KnowledgeBaseFacts.

(** ** The annotations of a search result *)

Lemma annotate_similarity supplier s d :
  annotate supplier s d !! "similarity_score" = Some (VFloat (round3 s)).
Proof. unfold annotate. by rewrite lookup_insert_ne, lookup_insert_eq. Qed.


Lemma annotate_other supplier s d key :
  key ≠ "similarity_score" → key ≠ "distance" →
  annotate supplier s d !! key = supplier !! key.
Proof. intros. unfold annotate. by rewrite !lookup_insert_ne. Qed.

(** ** The sample stores *)

Lemma l2sq_zero n : l2sq (replicate n 0%R) (replicate n 0%R) = 0%R.
Proof. induction n as [|n IH]; simpl; [done|]. rewrite IH. lra. Qed.

Lemma l2sq_axis_zero x : l2sq (axis_vec x) zero_vec = (x * x)%R.
Proof.
  unfold axis_vec, zero_vec.
  change (replicate 768 0%R) with (0%R :: replicate 767 0%R).
  change (l2sq (x :: replicate 767 0%R) (0%R :: replicate 767 0%R))
    with ((x - 0) * (x - 0) + l2sq (replicate 767 0%R) (replicate 767 0%R))%R.
  rewrite l2sq_zero. lra.
Qed.

Lemma length_axis_vec x : length (axis_vec x) = 768%nat.
Proof. unfold axis_vec. cbn [length]. by rewrite length_replicate. Qed.

Lemma same_distance_sorted (d : R) (l : list (R * Z)) :
  Forall (λ p, p.1 = d) l → StronglySorted hit_le l.
Proof.
  induction 1 as [|p l Hp Hl IH]; constructor; [done|].
  eapply Forall_impl; [exact Hl|].
  intros q Hq. unfold hit_le. rewrite Hp, Hq. lra.
Qed.

Lemma collect_results_same_distance records (m d : R) (a n : nat) acc :
  (a + n ≤ length records)%nat →
  collect_results records m ((λ i, (d, Z.of_nat i)) <$> seq a n) acc =
    Ok (acc ++ if Rge_dec (similarity_of d) m
               then (λ s, annotate s (similarity_of d) d)
                      <$> take n (drop a records)
               else []).
Proof.
  revert a acc. induction n as [|n IH]; intros a acc Hlen.
  - simpl. by destruct (Rge_dec _ _); rewrite app_nil_r.
  - cbn [seq fmap list_fmap collect_results].
    destruct (Z.ltb_spec (Z.of_nat a) (Z.of_nat (length records))); [|lia].
    destruct (lookup_lt_is_Some_2 records a) as [s Hs]; [lia|].
    rewrite (list_getitem_in_range _ _ s); [|lia|by rewrite Nat2Z.id].
    simpl. rewrite IH by lia.
    rewrite (drop_S _ _ _ Hs). simpl.
    destruct (Rge_dec _ _); [|done]. by rewrite <- app_assoc.
Qed.

(** A search of a sample store: every record is at squared distance
    [x * x] from the query, so the [k] first ones are reported. *)
Lemma search_store_of x web query k (m : R) records :
  0 < k → records ≠ [] →
  search_suppliers (env_at x web) query k m (store_of records) =
    if Rge_dec (similarity_of (x * x)) m
    then (λ s, annotate s (similarity_of (x * x)) (x * x))
           <$> take (Z.to_nat k) records
    else [].
Proof.
  intros Hk Hne. unfold search_suppliers, search_suppliers_try.
  assert (length records ≠ 0%nat) as Hlen by by destruct records.
  cbn [suppliers store_of index embed_query env_at].
  apply Nat.eqb_neq in Hlen as Hlen'. rewrite Hlen'. simpl.
  set (k' := Z.min k (Z.of_nat (length records))).
  rewrite index_search_nearest; cycle 1.
  { apply length_axis_vec. }
  { unfold ntotal. cbn [vectors]. rewrite length_replicate. unfold k'. lia. }
  cbn [vectors].
  rewrite (imap_ext _ (λ i _, (x * x, Z.of_nat i)%R)); cycle 1.
  { intros i v [-> _]%lookup_replicate. by rewrite l2sq_axis_zero. }
  rewrite (imap_seq_0 _ (λ i, (x * x, Z.of_nat i)%R)), length_replicate.
  rewrite sort_hits_id; cycle 1.
  { apply (same_distance_sorted (x * x)). apply Forall_fmap.
    by apply Forall_forall. }
  rewrite <- fmap_take, take_seq. simpl.
  rewrite collect_results_same_distance by lia.
  simpl. rewrite drop_0.
  destruct (Rge_dec _ _); [|done].
  f_equal. unfold k'.
  destruct (Z.le_ge_cases k (Z.of_nat (length records))).
  - rewrite Z.min_l by done. f_equal. lia.
  - rewrite Z.min_r, Nat2Z.id by done. rewrite Nat.min_id.
    by rewrite !take_ge by lia.
Qed.

(** ** Merging local and web candidates *)

Lemma slice_to_nonneg {A} (n : Z) (l : list A) :
  0 ≤ n → slice_to n l = take (Z.to_nat n) l.
Proof. intros Hn. unfold slice_to. by destruct (Z.leb_spec 0 n); [|lia]. Qed.

Lemma slice_to_length {A} (n : Z) (l : list A) :
  0 ≤ n → Z.of_nat (length (slice_to n l)) ≤ n.
Proof.
  intros Hn. rewrite slice_to_nonneg by done.
  pose proof (firstn_le_length (Z.to_nat n) l). lia.
Qed.

Lemma filterM_Ok_sublist {A} (p : A → result bool) (l r : list A) :
  filterM p l = Ok r → sublist r l.
Proof.
  revert r. induction l as [|a l IH]; intros r; simpl.
  - intros [= <-]. constructor.
  - destruct (p a) as [keep|e]; simpl; [|done].
    destruct (filterM p l) as [kept|e]; simpl; [|done].
    intros [= <-]. destruct keep; constructor; by apply IH.
Qed.

Lemma filterM_all_true {A} (p : A → result bool) (l : list A) :
  Forall (λ a, p a = Ok true) l → filterM p l = Ok l.
Proof.
  induction 1 as [|a l Ha _ IH]; simpl; [done|]. by rewrite Ha, IH.
Qed.

Lemma mapM_all_Ok {A B} (f : A → result B) (l : list A) :
  Forall (λ a, ∃ b, f a = Ok b) l → ∃ bs, mapM f l = Ok bs.
Proof.
  induction 1 as [|a l [b Hb] _ [bs IH]]; simpl; [by eexists|].
  rewrite Hb, IH. by eexists.
Qed.

Lemma dedup_new_fresh seen ws :
  Forall (λ w, title_key w ∉ seen) (dedup_new seen ws).
Proof.
  revert seen. induction ws as [|w ws IH]; intros seen; simpl; [constructor|].
  destruct (decide _) as [|Hfresh]; [apply IH|].
  constructor; [done|].
  eapply Forall_impl; [apply IH|]. intros w'. set_solver.
Qed.

Lemma dedup_new_NoDup seen ws : NoDup (title_key <$> dedup_new seen ws).
Proof.
  revert seen. induction ws as [|w ws IH]; intros seen; simpl; [constructor|].
  destruct (decide _) as [|Hfresh]; [apply IH|].
  simpl. constructor; [|apply IH].
  intros (w' & Heq & Hin)%list_elem_of_fmap.
  pose proof (dedup_new_fresh ({[title_key w]} ∪ seen) ws) as Hall.
  rewrite Forall_forall in Hall. specialize (Hall w' Hin). set_solver.
Qed.

Lemma dedup_new_sublist seen ws : sublist (dedup_new seen ws) ws.
Proof.
  revert seen. induction ws as [|w ws IH]; intros seen; simpl; [constructor|].
  destruct (decide _); constructor; apply IH.
Qed.

Lemma title_key_has_str r s :
  r !! "title" = Some (VStr s) → title_key r = lower s.
Proof. intros Hr. unfold title_key, get. by rewrite Hr. Qed.

(** The loop over the web results agrees, within the cap, with
    deduplication that knows no cap. *)
Lemma merge_google_take (t : Z) ws merged seen :
  0 ≤ t →
  Forall (has_str "title") ws →
  ∃ r, merge_google t ws merged seen = Ok r
       ∧ take (Z.to_nat t) r
         = take (Z.to_nat t) (merged ++ dedup_new seen ws).
Proof.
  intros Ht Hws. revert merged seen.
  induction Hws as [|w ws [s Hs] _ IH]; intros merged seen.
  - exists merged. simpl. by rewrite app_nil_r.
  - cbn [merge_google dedup_new].
    rewrite (title_key_has_str w s Hs).
    unfold get. rewrite Hs. simpl.
    destruct (decide (lower s ∈ seen)) as [Hin|Hout]; [apply IH|].
    destruct (Z.geb_spec (Z.of_nat (length (merged ++ [w]))) t) as [Hfull|Hmore].
    + exists (merged ++ [w]). split; [done|].
      replace (merged ++ w :: dedup_new ({[lower s]} ∪ seen) ws)
        with ((merged ++ [w]) ++ dedup_new ({[lower s]} ∪ seen) ws)
        by (by rewrite <- app_assoc).
      by rewrite (take_app_le (merged ++ [w])) by lia.
    + destruct (IH (merged ++ [w]) ({[lower s]} ∪ seen)) as (r & Hr & Htake).
      exists r. split; [done|].
      by rewrite Htake, <- app_assoc.
Qed.

Section HybridFacts.

Variable E : Env.

Lemma merge_results_length local web (t : Z) merged :
  0 ≤ t → _merge_results E local web t = Ok merged →
  Z.of_nat (length merged) ≤ t.
Proof.
  intros Ht. unfold _merge_results.
  destruct (mapM (local_candidate E) local) as [cands|e]; simpl; [|done].
  destruct (mapM title_lower cands) as [names|e]; simpl; [|done].
  destruct (merge_google _ _ _ _) as [r|e]; simpl; [|done].
  intros [= <-]. by apply slice_to_length.
Qed.

Lemma title_lower_keys cands :
  Forall (has_str "title") cands →
  mapM title_lower cands = Ok (title_key <$> cands).
Proof.
  induction 1 as [|c cands [s Hs] _ IH]; simpl; [done|].
  assert (title_lower c = Ok (lower s)) as ->
    by (unfold title_lower, getitem; by rewrite Hs).
  simpl. rewrite IH. simpl. by rewrite (title_key_has_str c s Hs).
Qed.

Lemma merge_results_spec local web (t : Z) cands :
  0 ≤ t →
  mapM (local_candidate E) local = Ok cands →
  Forall (has_str "title") cands →
  Forall (has_str "title") web →
  _merge_results E local web t = Ok (merged_under_cap t cands web).
Proof.
  intros Ht Hcands Htitles Hweb. unfold _merge_results.
  rewrite Hcands. simpl. rewrite title_lower_keys by done. simpl.
  destruct (merge_google_take t web cands
              (list_to_set (title_key <$> cands)) Ht Hweb) as (r & Hr & Htake).
  rewrite Hr. simpl. rewrite slice_to_nonneg by done.
  by rewrite Htake.
Qed.

End HybridFacts.

Lemma merged_under_cap_full (cap : Z) cands webs :
  0 ≤ cap ≤ Z.of_nat (length cands) →
  merged_under_cap cap cands webs = take (Z.to_nat cap) cands.
Proof. intros Hcap. unfold merged_under_cap. apply take_app_le. lia. Qed.

Lemma merged_under_cap_short (cap : Z) cands webs :
  Z.of_nat (length cands) < cap →
  ∃ kept,
    merged_under_cap cap cands webs = cands ++ kept
    ∧ sublist kept webs
    ∧ Forall (λ w, title_key w ∉ title_key <$> cands) kept
    ∧ NoDup (title_key <$> kept).
Proof.
  intros Hcap. unfold merged_under_cap.
  set (fresh := dedup_new (list_to_set (title_key <$> cands)) webs).
  exists (take (Z.to_nat cap - length cands) fresh). split_and!.
  - apply take_app_ge. lia.
  - etrans; [apply sublist_take|apply dedup_new_sublist].
  - apply Forall_take. eapply Forall_impl; [apply dedup_new_fresh|].
    intros w Hw Hin. apply Hw. by apply elem_of_list_to_set.
  - rewrite fmap_take. eapply sublist_NoDup; [apply dedup_new_NoDup|].
    apply sublist_take.
Qed.

(** ** The local search *)

Lemma list_getitem_elem_of {A} (l : list A) (i : Z) (a : A) :
  list_getitem l i = Ok a → a ∈ l.
Proof.
  unfold list_getitem. cbv zeta.
  destruct (0 <=? (if 0 <=? i then i else Z.of_nat (length l) + i)); [|done].
  destruct (l !! _) as [b|] eqn:Hb; [|done].
  intros [= <-]. by eapply list_elem_of_lookup_2.
Qed.

Lemma collect_results_annotated records (m : R) pairs acc r :
  collect_results records m pairs acc = Ok r →
  Forall (annotated_from records) acc →
  Forall (annotated_from records) r.
Proof.
  revert acc. induction pairs as [|[distance idx] pairs IH]; intros acc; simpl.
  - by intros [= <-].
  - destruct (idx <? _); [|apply IH].
    destruct (list_getitem records idx) as [s|e] eqn:Hs; simpl; [|done].
    intros Hr Hacc. apply (IH _ Hr).
    destruct (Rge_dec _ _); [|done].
    apply Forall_app. split; [done|].
    constructor; [|constructor].
    exists s, (similarity_of distance), distance.
    split; [by eapply list_getitem_elem_of|done].
Qed.

Lemma search_suppliers_annotated E query k (m : R) kb :
  Forall (annotated_from (suppliers kb)) (search_suppliers E query k m kb).
Proof.
  unfold search_suppliers, search_suppliers_try.
  destruct (_ =? _)%nat; [constructor|].
  destruct (embed_query E query) as [x|e]; simpl; [|constructor].
  destruct (index_search _ _ _) as [pairs|e]; simpl; [|constructor].
  destruct (collect_results _ _ _ _) as [r|e] eqn:Hr; [|constructor].
  eapply collect_results_annotated; [exact Hr|constructor].
Qed.

Lemma candidate_titles (local cands : list Dict) :
  Forall2 (λ r c, c !! "title" = r !! "company_name"
                  ∧ c !! "source" = Some (VStr "本地知识库")) local cands →
  Forall (has_str "company_name") local →
  Forall (has_str "title") cands.
Proof.
  induction 1 as [|r c local cands [Ht _] _ IH]; intros Hnames.
  - constructor.
  - apply Forall_cons in Hnames as [[name Hname] Hnames].
    constructor; [|by apply IH]. exists name. by rewrite Ht.
Qed.

Section SearchFacts.

Variable E : Env.

Lemma local_candidate_annotated supplier s d :
  ∃ c, local_candidate E (annotate supplier s d) = Ok c
       ∧ c !! "title" = Some (get supplier "company_name" VNone)
       ∧ c !! "source" = Some (VStr "本地知识库").
Proof.
  unfold local_candidate, get.
  rewrite annotate_similarity. simpl.
  rewrite !annotate_other by done.
  eexists. split; [done|]. split; reflexivity.
Qed.

Lemma local_candidates_Ok records local :
  Forall (annotated_from records) local →
  Forall (has_str "company_name") local →
  ∃ cands,
    mapM (local_candidate E) local = Ok cands
    ∧ Forall2 (λ r c, c !! "title" = r !! "company_name"
                      ∧ c !! "source" = Some (VStr "本地知识库")) local cands.
Proof.
  induction 1 as [|r local (supplier & s & d & _ & ->) _ IH]; intros Hstr.
  - exists []. by split; [|constructor].
  - apply Forall_cons in Hstr as [[name Hname] Hstr].
    destruct (IH Hstr) as (cands & Hcands & Hrel).
    destruct (local_candidate_annotated supplier s d) as (c & Hc & Ht & Hsrc).
    exists (c :: cands). simpl. rewrite Hc, Hcands. simpl.
    split; [done|]. constructor; [|done]. split; [|done].
    rewrite Ht, Hname. unfold get.
    rewrite annotate_other in Hname by done. by rewrite Hname.
Qed.

Lemma search_local_annotated product_info k (m : R) kb local :
  _search_local E product_info k m kb = Ok local →
  Forall (annotated_from (suppliers kb)) local.
Proof.
  unfold _search_local.
  destruct (_build_search_query product_info) as [query|e]; simpl; [|done].
  destruct (filterM _ _) as [filtered|e] eqn:Hf; simpl; [|done].
  destruct (mapM _ _); simpl; [|done].
  intros [= <-]. apply filterM_Ok_sublist in Hf.
  pose proof (search_suppliers_annotated E query k (1 / 2)%R kb) as Hall.
  rewrite Forall_forall in Hall. apply Forall_forall.
  intros r Hr. apply Hall. by eapply elem_of_sublist.
Qed.

(** What [search] hands back when the local search succeeds and the names
    involved are strings: the merge under the cap [google_k], over the web
    results only if they were fetched. *)
Lemma search_merge_spec product_info local_k google_k (m : R) kb local web :
  0 ≤ google_k →
  _search_local E product_info local_k m kb = Ok local →
  Forall (has_str "company_name") local →
  create_google_search_tool E product_info = Ok web →
  Forall (has_str "title") web →
  ∃ cands stats,
    mapM (local_candidate E) local = Ok cands
    ∧ Forall2 (λ r c, c !! "title" = r !! "company_name"
                      ∧ c !! "source" = Some (VStr "本地知识库")) local cands
    ∧ (search E product_info local_k google_k m kb).2 =
        Ok (merged_under_cap google_k cands
              (if Z.of_nat (length local) <? google_k
               then take (Z.to_nat google_k) (tag_google <$> web) else []),
            stats).
Proof.
  intros Hk Hlocal Hnames Hweb Htitles.
  destruct (local_candidates_Ok (suppliers kb) local) as (cands & Hcands & Hrel);
    [by eapply search_local_annotated|done|].
  pose proof (candidate_titles _ _ Hrel Hnames) as Hctitles.
  exists cands. unfold search. rewrite Hlocal.
  destruct (Z.ltb_spec (Z.of_nat (length local)) google_k) as [Hlt|Hge].
  - unfold _search_google. rewrite Hweb. simpl.
    rewrite slice_to_nonneg by done.
    rewrite (merge_results_spec E _ _ _ cands); try done.
    + simpl. by eexists.
    + apply Forall_take, Forall_fmap.
      eapply Forall_impl; [exact Htitles|].
      intros w [s Hs]. exists s. unfold tag_google. simpl.
      by rewrite !lookup_insert_ne.
  - simpl. rewrite (merge_results_spec E _ _ _ cands); try done.
    simpl. by eexists.
Qed.

End SearchFacts.

(** The local search of a sample store whose records all pass both
    thresholds. *)
Lemma search_local_store_of x web product_info query k (m : R) records :
  0 < k → records ≠ [] →
  _build_search_query product_info = Ok query →
  (similarity_of (x * x) >= 1 / 2)%R →
  (round3 (similarity_of (x * x)) >= m)%R →
  Forall (λ r, has_str "company_name" r
               ∧ is_Some (r !! "cooperation_status")) records →
  _search_local (env_at x web) product_info k m (store_of records) =
    Ok ((λ s, annotate s (similarity_of (x * x)) (x * x))
          <$> take (Z.to_nat k) records).
Proof.
  intros Hk Hne Hq Hsim Hround Hrecords. unfold _search_local.
  rewrite Hq. simpl. rewrite search_store_of by done.
  destruct (Rge_dec _ _) as [_|]; [|done].
  rewrite filterM_all_true; cycle 1.
  { apply Forall_fmap, Forall_forall. intros s _. simpl.
    unfold get. rewrite annotate_similarity. simpl.
    by destruct (Rge_dec _ _). }
  simpl.
  destruct (mapM_all_Ok (print_local_match (env_at x web))
    (take 3 ((λ s, annotate s (similarity_of (x * x)) (x * x))
               <$> take (Z.to_nat k) records))) as [us Hus].
  { apply Forall_take, Forall_fmap, Forall_take.
    eapply Forall_impl; [exact Hrecords|].
    intros s [[name Hname] [status Hstatus]]. simpl.
    exists (). unfold print_local_match, getitem.
    rewrite annotate_similarity, !annotate_other by done.
    by rewrite Hname, Hstatus. }
  by rewrite Hus.
Qed.

(** The local search of a sample store whose records fall short of the
    threshold of [search_suppliers]. *)
Lemma search_local_store_of_far x web product_info query k (m : R) records :
  0 < k → records ≠ [] →
  _build_search_query product_info = Ok query →
  (similarity_of (x * x) < 1 / 2)%R →
  _search_local (env_at x web) product_info k m (store_of records) = Ok [].
Proof.
  intros Hk Hne Hq Hsim. unfold _search_local.
  rewrite Hq. simpl. rewrite search_store_of by done.
  destruct (Rge_dec _ _) as [Hge|]; [lra|done].
Qed.

(** ** Adding suppliers *)

Section AddFacts.

Variable E : Env.

(** The comprehension [[p for p in content_parts if p]] removes nothing:
    every part starts with its label. *)
Lemma build_document_content_all_lines supplier :
  _build_document_content E supplier =
    String.concat nl
      [ "公司名称: " +:+ py_str E (get supplier "title" (VStr ""));
        "类别: " +:+ py_str E (get supplier "category" (VStr ""));
        "类型: " +:+ py_str E (get supplier "match_type" (VStr ""));
        "描述: " +:+ py_str E (get supplier "snippet" (VStr ""));
        "评价: " +:+ py_str E (get supplier "reason" (VStr "")) ].
Proof. reflexivity. Qed.

Lemma add_supplier_embed_raise supplier w kb disk e :
  embed_query E (_build_document_content E supplier) = Raise e →
  add_supplier E supplier w (kb, disk) = (kb, disk, false).
Proof. intros He. unfold add_supplier. by rewrite He. Qed.

Lemma index_add_one ix x :
  length x = dim ix →
  index_add ix [x] = Ok {| dim := dim ix; vectors := vectors ix ++ [x] |}.
Proof.
  intros Hx. unfold index_add. simpl. by rewrite Hx, Nat.eqb_refl.
Qed.

(** A complete [add_supplier]: both structures grow by one, whatever
    becomes of the write. *)
Lemma add_supplier_complete supplier w kb disk x metadata :
  embed_query E (_build_document_content E supplier) = Ok x →
  length x = dim (index kb) →
  _build_metadata E supplier = Ok metadata →
  print_title supplier = Ok () →
  add_supplier E supplier w (kb, disk)
    = (appended kb x metadata, _save_index (appended kb x metadata) w disk,
       true).
Proof.
  intros Hx Hdim Hmeta Hprint. unfold add_supplier.
  by rewrite Hx, index_add_one, Hmeta, Hprint.
Qed.

(** When the metadata of the supplier can be built, [add_supplier] keeps
    the two in-memory structures in lock-step. *)
Lemma add_supplier_lockstep supplier w kb disk metadata :
  _build_metadata E supplier = Ok metadata →
  lockstep kb →
  lockstep (add_supplier E supplier w (kb, disk)).1.1.
Proof.
  intros Hmeta Hlock. unfold add_supplier.
  destruct (embed_query E _) as [x|e]; [|done].
  destruct (index_add (index kb) [x]) as [ix|e] eqn:Hadd; [|done].
  rewrite Hmeta.
  assert (ntotal ix = S (ntotal (index kb))) as Hix.
  { unfold index_add in Hadd. destruct (forallb _ _); [|done].
    injection Hadd as <-. unfold ntotal. simpl.
    rewrite length_app. simpl. lia. }
  destruct (print_title supplier); unfold lockstep in *; simpl;
    rewrite length_app, Hix; simpl; lia.
Qed.

(** The write outcome has no influence on the in-memory store or on what
    the caller receives. *)
Lemma add_supplier_write_blind supplier w kb disk :
  (add_supplier E supplier w (kb, disk)).1.1
    = (add_supplier E supplier WriteOk (kb, disk)).1.1
  ∧ (add_supplier E supplier w (kb, disk)).2
    = (add_supplier E supplier WriteOk (kb, disk)).2.
Proof.
  unfold add_supplier.
  destruct (embed_query E _); [|done].
  destruct (index_add _ _); [|done].
  destruct (_build_metadata E supplier); [|done].
  by destruct (print_title supplier).
Qed.

Lemma add_suppliers_batch_write_blind batch w kb disk :
  match add_suppliers_batch E batch w (kb, disk),
        add_suppliers_batch E batch WriteOk (kb, disk) with
  | Ok (kb1, _, n1), Ok (kb2, _, n2) => kb1 = kb2 ∧ n1 = n2
  | Raise e1, Raise e2 => e1 = e2
  | _, _ => False
  end.
Proof.
  unfold add_suppliers_batch.
  destruct (foldl _ _ _) as [[es ms] n].
  destruct es as [|x es]; [done|].
  by destruct (index_add _ _).
Qed.

Lemma batch_step_balanced batch (acc : list Vector * list Dict * Z) :
  Forall (λ s, ∃ metadata, _build_metadata E s = Ok metadata) batch →
  length acc.1.1 = length acc.1.2 →
  length (foldl (batch_step E) acc batch).1.1
    = length (foldl (batch_step E) acc batch).1.2.
Proof.
  intros Hall. revert acc.
  induction Hall as [|s batch [metadata Hs] _ IH]; intros [[es ms] n] Hacc;
    [done|].
  simpl. apply IH. unfold batch_step. rewrite Hs.
  destruct (embed_query E _); [|done].
  destruct (print_title s); simpl in *; rewrite !length_app; simpl; lia.
Qed.

(** When the metadata of every supplier of the batch can be built,
    [add_suppliers_batch] keeps the in-memory structures in lock-step. *)
Lemma add_suppliers_batch_lockstep batch w kb disk kb' disk' n :
  Forall (λ s, ∃ metadata, _build_metadata E s = Ok metadata) batch →
  lockstep kb →
  add_suppliers_batch E batch w (kb, disk) = Ok (kb', disk', n) →
  lockstep kb'.
Proof.
  intros Hall Hlock. unfold add_suppliers_batch.
  pose proof (batch_step_balanced batch ([], [], 0) Hall eq_refl) as Hbal.
  destruct (foldl _ _ _) as [[es ms] count]. simpl in Hbal.
  destruct es as [|x es]; [by intros [= <- _ _]|].
  destruct (index_add (index kb) (x :: es)) as [ix|e] eqn:Hadd; simpl; [|done].
  intros [= <- _ _]. unfold index_add in Hadd.
  destruct (forallb _ _); [|done]. injection Hadd as <-.
  unfold lockstep, ntotal in *. simpl in *.
  rewrite !length_app. simpl. lia.
Qed.

End AddFacts.

(** A store written completely is read back as it was. *)
Lemma reload_after_save kb disk :
  _load_or_create_index (_save_index kb WriteOk disk) = Ok kb.
Proof. by destruct kb. Qed.

(** ** The claims on the knowledge base *)

(** C9, at a supplier whose category is empty: the document text built by
    [_build_document_content] still has the category line, reduced to its
    label, where the design document leaves the line out. *)
Theorem build_document_content_empty_category_line :
  _build_document_content (env_at 0 []) supplier_without_category =
    String.concat nl
      [ "公司名称: Acme Co"; "类别: "; "类型: manufacturer";
        "描述: TWS headphone factory"; "评价: CE certified" ]
  ∧ labelled_lines_of_nonempty_fields supplier_without_category =
    String.concat nl
      [ "公司名称: Acme Co"; "类型: manufacturer";
        "描述: TWS headphone factory"; "评价: CE certified" ].
Proof. split; vm_compute; reflexivity. Qed.

(** C10: when the embedding provider raises on the document text of the
    supplier, [add_supplier] returns [False] and leaves the index, the
    metadata list and both files as they were. *)
Theorem add_supplier_embedding_failure_atomic E supplier w kb disk e :
  embed_query E (_build_document_content E supplier) = Raise e →
  add_supplier E supplier w (kb, disk) = (kb, disk, false).
Proof. apply add_supplier_embed_raise. Qed.

Lemma add_supplier_embedding_failure_atomic_witness :
  add_supplier env_down (web_hit "Acme Co") WriteOk (empty_store, no_files)
    = (empty_store, no_files, false).
Proof.
  apply (add_supplier_embedding_failure_atomic env_down _ _ _ _ ProviderError).
  reflexivity.
Defined.







(** C8 as stated fails: when the write of the index file fails, nothing
    reaches the disk and [add_supplier] still returns [True], as it does
    after a successful write. *)
Lemma save_failure_returns_true :
  (add_supplier (env_at 0 []) (web_hit "Acme Co") (IndexWriteFails false)
     (empty_store, no_files)).2 = true
  ∧ (add_supplier (env_at 0 []) (web_hit "Acme Co") (IndexWriteFails false)
       (empty_store, no_files)).1.2 = no_files
  ∧ (add_supplier (env_at 0 []) (web_hit "Acme Co") WriteOk
       (empty_store, no_files)).2 = true.
Proof. split_and!; reflexivity. Qed.

(** C8, amended: if the disk write fails during [add_supplier] or
    [add_suppliers_batch], the in-memory index and metadata keep the
    appended entries, and the caller receives what it receives after a
    successful write ([True], respectively the count): the failure is
    not reported. *)
Theorem save_failure_keeps_memory_unreported
    E supplier batch w kb disk x metadata :
  embed_query E (_build_document_content E supplier) = Ok x →
  length x = dim (index kb) →
  _build_metadata E supplier = Ok metadata →
  print_title supplier = Ok () →
  add_supplier E supplier w (kb, disk)
    = (appended kb x metadata, _save_index (appended kb x metadata) w disk,
       true)
  ∧ match add_suppliers_batch E batch w (kb, disk),
          add_suppliers_batch E batch WriteOk (kb, disk) with
    | Ok (kb1, _, n1), Ok (kb2, _, n2) => kb1 = kb2 ∧ n1 = n2
    | Raise e1, Raise e2 => e1 = e2
    | _, _ => False
    end.
Proof.
  intros Hx Hdim Hmeta Hprint. split.
  - by apply add_supplier_complete.
  - apply add_suppliers_batch_write_blind.
Qed.

Lemma save_failure_keeps_memory_unreported_witness :
  add_supplier (env_at 0 []) (web_hit "Acme Co") (MetadataWriteFails true)
      (empty_store, no_files)
    = (appended empty_store (axis_vec 0) (record_of "Acme Co"),
       _save_index (appended empty_store (axis_vec 0) (record_of "Acme Co"))
         (MetadataWriteFails true) no_files,
       true)
  ∧ match add_suppliers_batch (env_at 0 []) [web_hit "Bolt Ltd"]
            (MetadataWriteFails true) (empty_store, no_files),
          add_suppliers_batch (env_at 0 []) [web_hit "Bolt Ltd"]
            WriteOk (empty_store, no_files) with
    | Ok (kb1, _, n1), Ok (kb2, _, n2) => kb1 = kb2 ∧ n1 = n2
    | Raise e1, Raise e2 => e1 = e2
    | _, _ => False
    end.
Proof.
  apply (save_failure_keeps_memory_unreported (env_at 0 [])
           (web_hit "Acme Co") [web_hit "Bolt Ltd"] (MetadataWriteFails true)
           empty_store no_files (axis_vec 0) (record_of "Acme Co"));
    reflexivity.
Defined.

(** C2, at a supplier whose ["contact"] entry is [None]: [add_supplier]
    has added the vector when [_build_metadata] raises, and the batch
    keeps the embedding of an item whose metadata it could not build; from
    a store in lock-step both leave one vector more than records, and the
    batch writes that state to disk. *)
Theorem add_without_contact_breaks_lockstep :
  lockstep empty_store
  ∧ (∃ kb,
       add_supplier (env_at 0 []) (supplier_without_contact "Acme Co")
         WriteOk (empty_store, no_files) = (kb, no_files, false)
       ∧ ntotal (index kb) = 1%nat
       ∧ length (suppliers kb) = 0%nat)
  ∧ (∃ kb,
       add_suppliers_batch (env_at 0 [])
         [supplier_without_contact "Acme Co"; web_hit "Bolt Ltd"]
         WriteOk (empty_store, no_files)
         = Ok (kb, {| index_file := Stored (index kb);
                      metadata_file := Stored (suppliers kb) |}, 1)
       ∧ ntotal (index kb) = 2%nat
       ∧ suppliers kb = [record_of "Bolt Ltd"]).
Proof.
  split_and!.
  - reflexivity.
  - eexists. split_and!; reflexivity.
  - eexists. split_and!; reflexivity.
Qed.

(** ** The claims on the hybrid search *)

Lemma sample_query :
  _build_search_query sample_product
    = Ok "Bluetooth Headphones Consumer Electronics".
Proof. reflexivity. Qed.

Lemma record_of_well_formed name :
  has_str "company_name" (record_of name)
  ∧ is_Some (record_of name !! "cooperation_status").
Proof. split; [by exists name|by eexists]. Qed.

(** The local search of the four sample suppliers with the default
    arguments of [search]: all four pass. *)
Lemma search_local_four web :
  _search_local (env_at 0 web) sample_product 5 (6 / 10)
    (store_of four_suppliers)
  = Ok ((λ s, annotate s (similarity_of (0 * 0)) (0 * 0)) <$> four_suppliers).
Proof.
  rewrite (search_local_store_of 0 web sample_product _ 5 (6 / 10)%R
             four_suppliers ltac:(lia) ltac:(done) sample_query).
  - done.
  - rewrite similarity_at_zero. lra.
  - rewrite similarity_at_zero, round3_one. lra.
  - repeat constructor; by eexists.
Qed.

Lemma annotated_company_name (records : list Dict) s d :
  Forall (has_str "company_name") records →
  Forall (has_str "company_name") ((λ r, annotate r s d) <$> records).
Proof.
  intros Hall. apply Forall_fmap. eapply Forall_impl; [exact Hall|].
  intros r [name Hname]. exists name. simpl.
  by rewrite annotate_other.
Qed.




(** C3, at a record whose similarity lies between the caller's threshold
    0.3 and 0.5: the record is the nearest one and the similarity search
    called with the caller's arguments returns it, but [_search_local]
    calls [search_suppliers] without [min_similarity], whose default 0.5
    removes the record before the caller's threshold is applied. *)
Theorem search_local_hidden_threshold :
  (similarity_of (3 * 3) >= 3 / 10)%R
  ∧ search_suppliers (env_at 3 []) "Bluetooth Headphones Consumer Electronics"
      5 (3 / 10) (store_of [record_of "Acme Co"])
    = [annotate (record_of "Acme Co") (similarity_of (3 * 3)) (3 * 3)]
  ∧ _search_local (env_at 3 []) sample_product 5 (3 / 10)
      (store_of [record_of "Acme Co"]) = Ok [].
Proof.
  pose proof similarity_near as [Hlo Hhi]. split_and!.
  - lra.
  - rewrite search_store_of by done.
    destruct (Rge_dec _ _) as [|Hn]; [done|]. lra.
  - by apply (search_local_store_of_far 3 [] sample_product _ 5 (3 / 10)%R
                [record_of "Acme Co"] ltac:(lia) ltac:(done) sample_query).
Qed.

(** C6: the web search adapter is called, once, exactly when the local
    search returned fewer than [google_k] results. *)
Theorem web_search_called_iff_shortfall
    E product_info local_k google_k (m : R) kb local :
  _search_local E product_info local_k m kb = Ok local →
  (Z.of_nat (length local) < google_k →
   (search E product_info local_k google_k m kb).1 = [product_info])
  ∧ (google_k ≤ Z.of_nat (length local) →
     (search E product_info local_k google_k m kb).1 = []).
Proof.
  intros Hlocal. unfold search. rewrite Hlocal.
  destruct (Z.ltb_spec (Z.of_nat (length local)) google_k); split; by try lia.
Qed.

Lemma web_search_called_iff_shortfall_witness :
  (Z.of_nat (length ((λ s, annotate s (similarity_of (0 * 0)) (0 * 0))
                       <$> four_suppliers)) < 3 →
   (search (env_at 0 [web_hit "Echo GmbH"]) sample_product 5 3 (6 / 10)
      (store_of four_suppliers)).1 = [sample_product])
  ∧ (3 ≤ Z.of_nat (length ((λ s, annotate s (similarity_of (0 * 0)) (0 * 0))
                             <$> four_suppliers)) →
     (search (env_at 0 [web_hit "Echo GmbH"]) sample_product 5 3 (6 / 10)
        (store_of four_suppliers)).1 = []).
Proof.
  apply (web_search_called_iff_shortfall (env_at 0 [web_hit "Echo GmbH"])
           sample_product 5 3 (6 / 10)%R (store_of four_suppliers)).
  apply search_local_four.
Defined.

(** C7: for counts [local_k] and [google_k], the list that [search]
    returns has at most [local_k + google_k] entries. *)
Theorem search_result_within_cap
    E product_info local_k google_k (m : R) kb merged stats :
  0 ≤ local_k → 0 ≤ google_k →
  (search E product_info local_k google_k m kb).2 = Ok (merged, stats) →
  Z.of_nat (length merged) ≤ local_k + google_k.
Proof.
  intros Hl Hg. unfold search.
  destruct (_search_local E product_info local_k m kb) as [local|e]; [|done].
  destruct (if Z.of_nat (length local) <? google_k
            then ([product_info], _search_google E product_info google_k)
            else ([], Ok [])) as [calls [google_results|e]]; simpl; [|done].
  destruct (_merge_results E local google_results google_k)
    as [merged_results|e] eqn:Hmerge; simpl; [|done].
  intros [= <- _].
  apply merge_results_length in Hmerge; lia.
Qed.

Lemma search_result_within_cap_witness :
  Z.of_nat (length [tag_google (web_hit "Acme Co");
                    tag_google (web_hit "Bolt Ltd")]) ≤ 5 + 3.
Proof.
  eapply (search_result_within_cap
            (env_at 0 [web_hit "Acme Co"; web_hit "acme co";
                       web_hit "Bolt Ltd"])
            sample_product 5 3 (6 / 10)%R empty_store).
  - lia.
  - lia.
  - reflexivity.
Defined.

(** ** The deduplication example of the design document

    A local result titled "Acme Co" and a web result titled "acme co": the
    output has the local candidate and, of the web results, only the one
    with another name. *)
Lemma dedup_keeps_local_acme :
  ∃ c stats,
    (search (env_at 0 [web_hit "acme co"; web_hit "Bolt Ltd"])
       sample_product 5 3 (6 / 10) (store_of [record_of "Acme Co"])).2
      = Ok ([c; tag_google (web_hit "Bolt Ltd")], stats)
    ∧ c !! "title" = Some (VStr "Acme Co")
    ∧ c !! "source" = Some (VStr "本地知识库").
Proof.
  destruct (search_merge_spec
              (env_at 0 [web_hit "acme co"; web_hit "Bolt Ltd"])
              sample_product 5 3 (6 / 10)%R (store_of [record_of "Acme Co"])
              [annotate (record_of "Acme Co") (similarity_of (0 * 0)) (0 * 0)]
              [web_hit "acme co"; web_hit "Bolt Ltd"])
    as (cands & stats & _ & Hrel & Hsearch).
  - lia.
  - rewrite (search_local_store_of 0 _ sample_product _ 5 (6 / 10)%R
               [record_of "Acme Co"] ltac:(lia) ltac:(done) sample_query).
    + done.
    + rewrite similarity_at_zero. lra.
    + rewrite similarity_at_zero, round3_one. lra.
    + repeat constructor; by eexists.
  - apply (annotated_company_name [record_of "Acme Co"]).
    repeat constructor. by eexists.
  - reflexivity.
  - repeat constructor; by eexists.
  - apply Forall2_cons_inv_l in Hrel as (c & rest & [Htitle Hsource] & Hrest & ->).
    apply Forall2_nil_inv_l in Hrest as ->.
    rewrite annotate_other in Htitle by done.
    change (record_of "Acme Co" !! "company_name")
      with (Some (VStr "Acme Co")) in Htitle.
    exists c, stats. split_and!; [|done|done].
    rewrite Hsearch. do 2 f_equal.
    unfold merged_under_cap. simpl.
    rewrite (title_key_has_str c "Acme Co" Htitle).
    reflexivity.
Qed.

(** * Further properties of the code *)

(** ** Metadata of a supplier *)

(** [_build_metadata] succeeds exactly when the supplier has no
    ["contact"] entry or one that is a dictionary. *)
Theorem build_metadata_succeeds_iff E supplier :
  (∃ metadata, _build_metadata E supplier = Ok metadata)
  ↔ supplier !! "contact" = None
    ∨ ∃ d, supplier !! "contact" = Some (VDict d).
Proof.
  unfold _build_metadata, get.
  destruct (supplier !! "contact") as [[| | | |d]|] eqn:Hc; simpl.
  all: split;
    [ intros [m Hm]; try discriminate; eauto
    | intros [?|[? ?]]; try discriminate; eauto ].
Qed.

(** The record built for a supplier has exactly the twelve fields of a
    stored record; it is marked as not contacted and dated today whatever
    the supplier dictionary says, and a missing title becomes "Unknown". *)
Theorem build_metadata_shape E supplier metadata :
  _build_metadata E supplier = Ok metadata →
  dom metadata =
    list_to_set
      [ "company_name"; "category"; "website"; "match_type";
        "supplier_score"; "contact_person"; "email"; "phone"; "linkedin";
        "cooperation_status"; "add_date"; "source" ]
  ∧ metadata !! "cooperation_status" = Some (VStr "未联系")
  ∧ metadata !! "add_date" = Some (VStr (today E))
  ∧ metadata !! "company_name"
      = Some (default (VStr "Unknown") (supplier !! "title"))
  ∧ metadata !! "website" = Some (default (VStr "") (supplier !! "link")).
Proof.
  unfold _build_metadata.
  destruct (value_get _ "name" _) as [n|]; simpl; [|done].
  destruct (value_get _ "email" _) as [e|]; simpl; [|done].
  destruct (value_get _ "phone" _) as [p|]; simpl; [|done].
  destruct (value_get _ "linkedin" _) as [l|]; simpl; [|done].
  intros [= <-]. split_and!; reflexivity.
Qed.

Lemma build_metadata_shape_witness :
  dom (record_of "Acme Co") =
    list_to_set
      [ "company_name"; "category"; "website"; "match_type";
        "supplier_score"; "contact_person"; "email"; "phone"; "linkedin";
        "cooperation_status"; "add_date"; "source" ]
  ∧ record_of "Acme Co" !! "cooperation_status" = Some (VStr "未联系")
  ∧ record_of "Acme Co" !! "add_date" = Some (VStr (today (env_at 0 [])))
  ∧ record_of "Acme Co" !! "company_name"
      = Some (default (VStr "Unknown") (web_hit "Acme Co" !! "title"))
  ∧ record_of "Acme Co" !! "website"
      = Some (default (VStr "") (web_hit "Acme Co" !! "link")).
Proof.
  apply (build_metadata_shape (env_at 0 []) (web_hit "Acme Co")).
  reflexivity.
Defined.

(** ** Adding to the store *)

Lemma index_add_Ok ix xs ix' :
  index_add ix xs = Ok ix' →
  Forall (λ x, length x = dim ix) xs
  ∧ ix' = {| dim := dim ix; vectors := vectors ix ++ xs |}.
Proof.
  unfold index_add. destruct (forallb _ xs) eqn:Hall; [|done].
  intros [= <-]. split; [|done].
  apply Forall_forall. intros x Hx.
  rewrite forallb_forall in Hall. apply Nat.eqb_eq, Hall.
  by apply list_elem_of_In.
Qed.


Lemma add_supplier_true_inv E supplier w kb disk kb' disk' :
  add_supplier E supplier w (kb, disk) = (kb', disk', true) →
  ∃ x metadata,
    embed_query E (_build_document_content E supplier) = Ok x
    ∧ length x = dim (index kb)
    ∧ _build_metadata E supplier = Ok metadata
    ∧ kb' = appended kb x metadata
    ∧ disk' = _save_index kb' w disk.
Proof.
  unfold add_supplier.
  destruct (embed_query E _) as [x|] eqn:Hx; [|done].
  destruct (index_add _ _) as [ix|] eqn:Hix; [|done].
  destruct (_build_metadata E supplier) as [metadata|] eqn:Hm; [|done].
  destruct (print_title supplier); [|done].
  intros [= <- <-]. apply index_add_Ok in Hix as [Hdim ->].
  apply Forall_cons in Hdim as [Hdim _].
  by exists x, metadata.
Qed.

(** When [add_supplier] returns [True], the embedding had the dimension of
    the index, the vector and the record were appended, each at the end,
    and the write was attempted on that state. *)
Theorem add_supplier_true_appended E supplier w kb disk kb' disk' :
  add_supplier E supplier w (kb, disk) = (kb', disk', true) →
  ∃ x metadata,
    embed_query E (_build_document_content E supplier) = Ok x
    ∧ length x = dim (index kb)
    ∧ _build_metadata E supplier = Ok metadata
    ∧ kb' = appended kb x metadata
    ∧ disk' = _save_index kb' w disk.
Proof.
  unfold add_supplier.
  destruct (embed_query E _) as [x|] eqn:Hx; [|done].
  destruct (index_add (index kb) [x]) as [ix|] eqn:Hix; [|done].
  destruct (_build_metadata E supplier) as [metadata|] eqn:Hm; [|done].
  destruct (print_title supplier); [|done].
  intros [= <- <-]. exists x, metadata.
  apply index_add_Ok in Hix as [[Hdim _]%Forall_cons ->].
  by split_and!.
Qed.

Lemma add_supplier_true_appended_witness :
  ∃ x metadata,
    embed_query (env_at 0 [])
      (_build_document_content (env_at 0 []) (web_hit "Acme Co")) = Ok x
    ∧ length x = dim (index empty_store)
    ∧ _build_metadata (env_at 0 []) (web_hit "Acme Co") = Ok metadata
    ∧ appended empty_store (axis_vec 0) (record_of "Acme Co")
        = appended empty_store x metadata
    ∧ files_of (appended empty_store (axis_vec 0) (record_of "Acme Co"))
        = _save_index
            (appended empty_store (axis_vec 0) (record_of "Acme Co"))
            WriteOk no_files.
Proof.
  apply (add_supplier_true_appended (env_at 0 []) (web_hit "Acme Co") WriteOk
           empty_store no_files).
  reflexivity.
Defined.



Lemma batch_step_cases E es ms (n : Z) s :
  ∃ ex mx n',
    batch_step E (es, ms, n) s = (es ++ ex, ms ++ mx, n')
    ∧ ex = match embedded E s with Some x => [x] | None => [] end
    ∧ n ≤ n'
    ∧ n' - n ≤ Z.of_nat (length mx)
    ∧ (length mx ≤ length ex)%nat
    ∧ (length ex ≤ 1)%nat
    ∧ Forall (λ m, _build_metadata E s = Ok m) mx.
Proof.
  unfold batch_step, embedded. cbv zeta.
  destruct (embed_query E (_build_document_content E s)) as [x|e].
  - destruct (_build_metadata E s) as [m|e'].
    + destruct (print_title s).
      * exists [x], [m], (n + 1). simpl.
        split_and!; try done; try lia. by repeat constructor.
      * exists [x], [m], n. simpl.
        split_and!; try done; try lia. by repeat constructor.
    + exists [x], [], n. rewrite app_nil_r. simpl. split_and!; done || lia.
  - exists [], [], n. rewrite !app_nil_r. simpl. split_and!; done || lia.
Qed.

(** What the loop of [add_suppliers_batch] has gathered: the vectors of
    all items the provider embedded, at most as many records, and a count
    that is at most the number of records. *)
Lemma batch_fold_invariant E batch es ms (n : Z) :
  ∃ es' ms',
    (foldl (batch_step E) (es, ms, n) batch).1.1 = es ++ es'
    ∧ (foldl (batch_step E) (es, ms, n) batch).1.2 = ms ++ ms'
    ∧ es' = omap (embedded E) batch
    ∧ n ≤ (foldl (batch_step E) (es, ms, n) batch).2
    ∧ (foldl (batch_step E) (es, ms, n) batch).2 - n ≤ Z.of_nat (length ms')
    ∧ (length ms' ≤ length es')%nat
    ∧ (length es' ≤ length batch)%nat
    ∧ Forall (λ m, ∃ s, s ∈ batch ∧ _build_metadata E s = Ok m) ms'.
Proof.
  revert es ms n. induction batch as [|s batch IH]; intros es ms n.
  - exists [], []. simpl. rewrite !app_nil_r. split_and!; done || lia.
  - cbn [foldl].
    destruct (batch_step_cases E es ms n s)
      as (ex & mx & n' & -> & Hex & Hn1 & Hn2 & Hl1 & Hl2 & Hfrom).
    destruct (IH (es ++ ex) (ms ++ mx) n')
      as (es' & ms' & He & Hm & Hes & Hn3 & Hn4 & Hl3 & Hl4 & Hfrom').
    exists (ex ++ es'), (mx ++ ms').
    rewrite He, Hm, <- !app_assoc, !length_app.
    split_and!; try done; try lia.
    + rewrite Hes, Hex. simpl. by destruct (embedded E s).
    + simpl. lia.
    + apply Forall_app. split.
      * eapply Forall_impl; [exact Hfrom|]. intros m Hm'.
        exists s. split; [apply list_elem_of_here|done].
      * eapply Forall_impl; [exact Hfrom'|]. intros m (s' & Hin & Hm').
        exists s'. split; [by apply list_elem_of_further|done].
Qed.

Lemma add_suppliers_batch_inv E batch w kb disk :
  ∃ ms (n : Z),
    0 ≤ n ≤ Z.of_nat (length ms)
    ∧ (length ms ≤ length (omap (embedded E) batch))%nat
    ∧ (length (omap (embedded E) batch) ≤ length batch)%nat
    ∧ (omap (embedded E) batch = [] → ms = [])
    ∧ Forall (λ m, ∃ s, s ∈ batch ∧ _build_metadata E s = Ok m) ms
    ∧ add_suppliers_batch E batch w (kb, disk) =
        match omap (embedded E) batch with
        | [] => Ok (kb, disk, n)
        | es =>
            ix ← index_add (index kb) es;
            let kb' := {| index := ix; suppliers := suppliers kb ++ ms |} in
            Ok (kb', _save_index kb' w disk, n)
        end.
Proof.
  unfold add_suppliers_batch.
  destruct (batch_fold_invariant E batch [] [] 0)
    as (es' & ms' & He & Hm & Hes & Hn1 & Hn2 & Hl1 & Hl2 & Hfrom).
  destruct (foldl _ _ _) as [[es ms] n]. simpl in *. subst es ms.
  exists ms', n. rewrite <- Hes. split_and!; try lia.
  - intros ->. destruct ms'; [done|simpl in Hl1; lia].
  - done.
  - by destruct es'.
Qed.

(** The number that [add_suppliers_batch] returns is at most the number
    of records it appended, which is at most the number of vectors it
    appended, which is at most the size of the batch. *)
Theorem add_suppliers_batch_counts E batch w kb disk kb' disk' (n : Z) :
  add_suppliers_batch E batch w (kb, disk) = Ok (kb', disk', n) →
  ∃ records vecs : nat,
    length (suppliers kb') = (length (suppliers kb) + records)%nat
    ∧ ntotal (index kb') = (ntotal (index kb) + vecs)%nat
    ∧ 0 ≤ n ≤ Z.of_nat records
    ∧ (records ≤ vecs ≤ length batch)%nat.
Proof.
  destruct (add_suppliers_batch_inv E batch w kb disk)
    as (ms & n0 & Hn & Hl1 & Hl2 & Hnil & _ & ->).
  destruct (omap (embedded E) batch) as [|x es] eqn:Hes.
  - intros [= <- _ <-]. exists 0%nat, 0%nat.
    rewrite (Hnil eq_refl) in Hn. simpl in Hn. lia.
  - destruct (index_add _ _) as [ix|] eqn:Hix; simpl; [|done].
    intros [= <- _ <-]. apply index_add_Ok in Hix as [_ ->].
    exists (length ms), (length (x :: es)). unfold ntotal. simpl.
    rewrite !length_app. simpl in *. lia.
Qed.

Lemma add_suppliers_batch_counts_witness :
  ∃ records vecs : nat,
    length [record_of "Bolt Ltd"] = (length (suppliers empty_store) + records)%nat
    ∧ ntotal {| dim := 768; vectors := [axis_vec 0; axis_vec 0] |}
        = (ntotal (index empty_store) + vecs)%nat
    ∧ 0 ≤ 1 ≤ Z.of_nat records
    ∧ (records ≤ vecs
       ≤ length [supplier_without_contact "Acme Co"; web_hit "Bolt Ltd"])%nat.
Proof.
  apply (add_suppliers_batch_counts (env_at 0 [])
           [supplier_without_contact "Acme Co"; web_hit "Bolt Ltd"] WriteOk
           empty_store no_files
           {| index := {| dim := 768; vectors := [axis_vec 0; axis_vec 0] |};
              suppliers := [record_of "Bolt Ltd"] |}
           (files_of
              {| index := {| dim := 768; vectors := [axis_vec 0; axis_vec 0] |};
                 suppliers := [record_of "Bolt Ltd"] |})).
  reflexivity.
Defined.


(** A batch of which the provider embeds no item (an empty batch among
    them) changes neither the store nor the files, and 0 is returned. *)
Theorem add_suppliers_batch_nothing_embedded E batch w kb disk :
  Forall (λ s, ∃ e, embed_query E (_build_document_content E s) = Raise e)
    batch →
  add_suppliers_batch E batch w (kb, disk) = Ok (kb, disk, 0).
Proof.
  intros Hall.
  assert (omap (embedded E) batch = []) as Hes.
  { induction Hall as [|s batch [e He] _ IH]; [done|].
    assert (embedded E s = None) as Hs by (unfold embedded; by rewrite He).
    simpl. by rewrite Hs. }
  destruct (add_suppliers_batch_inv E batch w kb disk)
    as (ms & n & Hn & _ & _ & Hnil & _ & ->).
  rewrite Hes. rewrite (Hnil Hes) in Hn. simpl in Hn.
  by replace n with 0 by lia.
Qed.

Lemma add_suppliers_batch_nothing_embedded_witness :
  add_suppliers_batch env_down [web_hit "Acme Co"; web_hit "Bolt Ltd"] WriteOk
    (store_of [record_of "Cobalt Inc"], no_files)
  = Ok (store_of [record_of "Cobalt Inc"], no_files, 0).
Proof.
  apply (add_suppliers_batch_nothing_embedded env_down).
  repeat constructor; by exists ProviderError.
Defined.



(** ** Bounds of the similarity search *)

Lemma index_search_length ix x (k : Z) pairs :
  index_search ix x k = Ok pairs → 0 < k ∧ length pairs = Z.to_nat k.
Proof.
  unfold index_search. destruct (negb _); [done|].
  destruct (Z.leb_spec k 0); [done|]. intros [= <-]. split; [lia|].
  rewrite length_app, length_replicate.
  pose proof (firstn_le_length (Z.to_nat k)
    (sort_hits (imap (λ i v, (l2sq x v, Z.of_nat i)) (vectors ix)))). lia.
Qed.

Lemma collect_results_length records (m : R) pairs acc r :
  collect_results records m pairs acc = Ok r →
  (length r ≤ length acc + length pairs)%nat.
Proof.
  revert acc. induction pairs as [|[distance idx] pairs IH]; intros acc; simpl.
  - intros [= <-]. lia.
  - destruct (idx <? _).
    + destruct (list_getitem records idx); simpl; [|done].
      intros Hr%IH. destruct (Rge_dec _ _); [rewrite length_app in Hr|];
        simpl in *; lia.
    + intros Hr%IH. lia.
Qed.

(** [search_suppliers] returns at most [k] records and at most as many as
    the store holds; for [k <= 0] it returns none. *)
Theorem search_suppliers_at_most_k E query (k : Z) (m : R) kb :
  Z.of_nat (length (search_suppliers E query k m kb)) ≤ Z.max 0 k
  ∧ (length (search_suppliers E query k m kb) ≤ length (suppliers kb))%nat.
Proof.
  unfold search_suppliers, search_suppliers_try.
  destruct (_ =? _)%nat; [simpl; lia|].
  destruct (embed_query E query) as [x|]; simpl; [|lia].
  destruct (index_search _ _ _) as [pairs|] eqn:Hs; simpl; [|lia].
  destruct (collect_results _ _ _ _) as [r|] eqn:Hr; simpl; [|lia].
  apply index_search_length in Hs as [Hk Hlen].
  apply collect_results_length in Hr. simpl in Hr. lia.
Qed.

Lemma collect_results_monotone records (m1 m2 : R) pairs acc1 acc2 :
  (m1 <= m2)%R → sublist acc2 acc1 →
  match collect_results records m2 pairs acc2,
        collect_results records m1 pairs acc1 with
  | Ok r2, Ok r1 => sublist r2 r1
  | Raise _, Raise _ => True
  | _, _ => False
  end.
Proof.
  intros Hm. revert acc1 acc2.
  induction pairs as [|[distance idx] pairs IH]; intros acc1 acc2 Hsub; simpl.
  - done.
  - destruct (idx <? _); [|by apply IH].
    destruct (list_getitem records idx) as [s|]; simpl; [|done].
    apply IH.
    destruct (Rge_dec _ m2) as [H2|H2], (Rge_dec _ m1) as [H1|H1].
    + by apply sublist_app.
    + lra.
    + by apply sublist_inserts_r.
    + done.
Qed.

(** Raising the threshold only removes results: the records returned for
    a threshold are, in the same order, among those returned for any lower
    threshold. *)
Theorem search_suppliers_threshold_monotone E query k (m1 m2 : R) kb :
  (m1 <= m2)%R →
  sublist (search_suppliers E query k m2 kb) (search_suppliers E query k m1 kb).
Proof.
  intros Hm. unfold search_suppliers, search_suppliers_try.
  destruct (_ =? _)%nat; [done|].
  destruct (embed_query E query) as [x|]; simpl; [|done].
  destruct (index_search _ _ _) as [pairs|]; simpl; [|done].
  pose proof (collect_results_monotone (suppliers kb) m1 m2 pairs [] [] Hm
                sublist_nil) as Hmono.
  destruct (collect_results _ m2 _ _), (collect_results _ m1 _ _); done.
Qed.

Lemma search_suppliers_threshold_monotone_witness :
  sublist
    (search_suppliers (env_at 3 []) "headphones" 5 (1 / 2)
       (store_of [record_of "Acme Co"]))
    (search_suppliers (env_at 3 []) "headphones" 5 (3 / 10)
       (store_of [record_of "Acme Co"])).
Proof.
  apply (search_suppliers_threshold_monotone (env_at 3 []) "headphones" 5
           (3 / 10)%R (1 / 2)%R).
  lra.
Defined.

(** ** Persistence *)

(** After a complete write the files hold the store: once [add_supplier]
    has returned [True], reloading gives the in-memory store back. *)
Theorem reload_after_add E supplier kb disk kb' disk' :
  add_supplier E supplier WriteOk (kb, disk) = (kb', disk', true) →
  _load_or_create_index disk' = Ok kb'.
Proof.
  intros Hadd.
  apply add_supplier_true_inv in Hadd as (x & metadata & _ & _ & _ & _ & ->).
  apply reload_after_save.
Qed.

Lemma reload_after_add_witness :
  _load_or_create_index
      (files_of (appended empty_store (axis_vec 0) (record_of "Acme Co")))
    = Ok (appended empty_store (axis_vec 0) (record_of "Acme Co")).
Proof.
  apply (reload_after_add (env_at 0 []) (web_hit "Acme Co") empty_store
           no_files).
  reflexivity.
Defined.

(** If the files hold the store before [add_suppliers_batch] and its write
    is complete, they hold the store afterwards, whatever the batch. *)
Theorem reload_after_batch E batch kb disk kb' disk' (n : Z) :
  _load_or_create_index disk = Ok kb →
  add_suppliers_batch E batch WriteOk (kb, disk) = Ok (kb', disk', n) →
  _load_or_create_index disk' = Ok kb'.
Proof.
  intros Hdisk Hbatch.
  destruct (add_suppliers_batch_inv E batch WriteOk kb disk)
    as (ms & n0 & _ & _ & _ & _ & _ & Heq).
  rewrite Heq in Hbatch.
  destruct (omap (embedded E) batch) as [|x es].
  - by injection Hbatch as <- <- _.
  - destruct (index_add _ _) as [ix|]; simpl in Hbatch; [|done].
    by injection Hbatch as <- <- _.
Qed.

Lemma reload_after_batch_witness :
  _load_or_create_index
      (files_of
         (appended_all empty_store
            [(axis_vec 0, record_of "Acme Co");
             (axis_vec 0, record_of "Bolt Ltd")]))
    = Ok (appended_all empty_store
            [(axis_vec 0, record_of "Acme Co");
             (axis_vec 0, record_of "Bolt Ltd")]).
Proof.
  apply (reload_after_batch (env_at 0 [])
           [web_hit "Acme Co"; web_hit "Bolt Ltd"] empty_store no_files _ _ 2);
    reflexivity.
Defined.

(** The two files are written one after the other.  If the write of the
    metadata file fails when the index file has been written, and the old
    metadata file is still there, [add_supplier] returns [True] and a
    reload finds one vector more than records. *)
Theorem reload_after_partial_write E supplier kb disk kb' disk' :
  lockstep kb →
  metadata_file disk = Stored (suppliers kb) →
  add_supplier E supplier (MetadataWriteFails false) (kb, disk)
    = (kb', disk', true) →
  ∃ reloaded,
    _load_or_create_index disk' = Ok reloaded
    ∧ suppliers reloaded = suppliers kb
    ∧ ntotal (index reloaded) = S (length (suppliers reloaded)).
Proof.
  intros Hlock Hmeta Hadd.
  apply add_supplier_true_inv in Hadd
    as (x & metadata & _ & _ & _ & -> & ->).
  exists {| index := index (appended kb x metadata); suppliers := suppliers kb |}.
  unfold _load_or_create_index. simpl. rewrite Hmeta. split_and!; try done.
  unfold ntotal. simpl. rewrite length_app. simpl.
  unfold lockstep, ntotal in Hlock. lia.
Qed.

Lemma reload_after_partial_write_witness :
  ∃ reloaded,
    _load_or_create_index
      (_save_index
         (appended (store_of [record_of "Acme Co"]) (axis_vec 0)
            (record_of "Bolt Ltd"))
         (MetadataWriteFails false)
         (files_of (store_of [record_of "Acme Co"]))) = Ok reloaded
    ∧ suppliers reloaded = suppliers (store_of [record_of "Acme Co"])
    ∧ ntotal (index reloaded) = S (length (suppliers reloaded)).
Proof.
  apply (reload_after_partial_write (env_at 0 []) (web_hit "Bolt Ltd")
           (store_of [record_of "Acme Co"])
           (files_of (store_of [record_of "Acme Co"]))
           (appended (store_of [record_of "Acme Co"]) (axis_vec 0)
              (record_of "Bolt Ltd")));
    reflexivity.
Defined.

(** ** Statistics *)





(** ** The query of the local search *)

Lemma str_join_TypeError sep parts e :
  str_join sep parts = Raise e → e = TypeError.
Proof.
  unfold str_join.
  assert (∀ e', mapM (λ v, match v with
                           | VStr s => Ok s
                           | _ => Raise TypeError
                           end) parts = Raise e' → e' = TypeError) as Hmap.
  { induction parts as [|v parts IH]; intros e'; simpl; [done|].
    destruct v; simpl; try by intros [= <-].
    destruct (mapM _ parts); simpl; [done|].
    intros [= <-]. by apply IH. }
  destruct (mapM _ parts) eqn:Hp; simpl; [done|].
  intros [= <-]. by eapply Hmap.
Qed.

(** [_build_search_query] never returns the empty string: when the name,
    the category and the specifications are all missing or empty it
    returns the default query; it can fail with a [TypeError] only. *)
Theorem build_search_query_never_empty product_info :
  match _build_search_query product_info with
  | Ok query =>
      query ≠ ""
      ∧ (truthy (get product_info "产品名称" (VStr "")) = false →
         truthy (get product_info "产品类别" (VStr "")) = false →
         truthy (get product_info "核心规格" (VStr "")) = false →
         query = "制造商 供应商")
  | Raise e => e = TypeError
  end.
Proof.
  unfold _build_search_query.
  destruct (str_join " " _) as [query|e] eqn:Hjoin; simpl.
  - split.
    + destruct (String.eqb query "") eqn:Hq; simpl; [done|].
      by apply String.eqb_neq in Hq.
    + intros H1 H2 H3. rewrite H1, H2, H3 in Hjoin.
      by injection Hjoin as <-.
  - by eapply str_join_TypeError.
Qed.

(** ** Statistics and tags of a hybrid search *)

Lemma local_candidate_tagged E supplier s d c :
  local_candidate E (annotate supplier s d) = Ok c →
  c !! "source" = Some (VStr "本地知识库")
  ∧ c !! "similarity_score" = Some (VFloat (round3 s))
  ∧ is_google c = false.
Proof.
  unfold local_candidate, get.
  rewrite annotate_similarity. simpl.
  intros [= <-]. split_and!; reflexivity.
Qed.

Lemma local_candidates_tagged E records local cands :
  Forall (annotated_from records) local →
  mapM (local_candidate E) local = Ok cands →
  Forall (λ c, tagged_candidate c ∧ is_google c = false) cands.
Proof.
  intros Hall Hcands. apply mapM_Ok_Forall2 in Hcands.
  induction Hcands as [|r c local cands Hc _ IH]; [constructor|].
  apply Forall_cons in Hall as [(supplier & s & d & _ & ->) Hall].
  apply local_candidate_tagged in Hc as (Hsrc & Hsim & Hg).
  constructor; [|by apply IH].
  split; [|done]. left. eauto.
Qed.

Lemma tag_google_tagged w :
  tagged_candidate (tag_google w) ∧ is_google (tag_google w) = true.
Proof.
  split.
  - right. unfold tag_google.
    by rewrite lookup_insert_eq, lookup_insert_ne, lookup_insert_eq.
  - unfold is_google, get, tag_google.
    by rewrite lookup_insert_ne, lookup_insert_eq.
Qed.

Lemma filter_none {A} (f : A → bool) (l : list A) :
  Forall (λ a, f a = false) l → List.filter f l = [].
Proof. induction 1 as [|a l Ha _ IH]; simpl; [done|]. by rewrite Ha. Qed.

Lemma filter_all {A} (f : A → bool) (l : list A) :
  Forall (λ a, f a = true) l → List.filter f l = l.
Proof. induction 1 as [|a l Ha _ IH]; simpl; [done|]. by rewrite Ha, IH. Qed.

(** The result of [search] with its statistics spelled out. *)
Lemma search_stats_spec E product_info local_k google_k (m : R) kb
    local web :
  0 ≤ google_k →
  _search_local E product_info local_k m kb = Ok local →
  Forall (has_str "company_name") local →
  create_google_search_tool E product_info = Ok web →
  Forall (has_str "title") web →
  ∃ cands,
    mapM (local_candidate E) local = Ok cands
    ∧ (search E product_info local_k google_k m kb).2 =
        let fetched := fetched_for local web google_k in
        let merged := merged_under_cap google_k cands fetched in
        Ok (merged,
            {| local_count := Z.of_nat (length local);
               google_count := Z.of_nat (length fetched);
               total_count := Z.of_nat (length merged);
               sources_local := Z.of_nat (length local);
               sources_google :=
                 Z.of_nat (length (List.filter is_google merged)) |}).
Proof.
  intros Hk Hlocal Hnames Hweb Htitles.
  destruct (local_candidates_Ok E (suppliers kb) local) as (cands & Hcands & Hrel);
    [by eapply search_local_annotated|done|].
  pose proof (candidate_titles _ _ Hrel Hnames) as Hctitles.
  exists cands. split; [done|].
  unfold search, fetched_for. rewrite Hlocal.
  destruct (Z.ltb_spec (Z.of_nat (length local)) google_k) as [Hlt|Hge].
  - unfold _search_google. rewrite Hweb. simpl.
    rewrite slice_to_nonneg by done.
    rewrite (merge_results_spec E _ _ _ cands); try done.
    apply Forall_take, Forall_fmap.
    eapply Forall_impl; [exact Htitles|].
    intros w [s Hs]. exists s. unfold tag_google. simpl.
    by rewrite !lookup_insert_ne.
  - simpl. by rewrite (merge_results_spec E _ _ _ cands).
Qed.

(** The statistics of [search]: [total_count] is the length of the merged
    list, [local_count] the number of local results; the breakdown by
    source adds up to the total exactly when no local result was cut by
    the cap, and overstates it otherwise. *)
Theorem search_stats_breakdown
    E product_info local_k google_k (m : R) kb local web merged stats :
  0 ≤ google_k →
  _search_local E product_info local_k m kb = Ok local →
  Forall (has_str "company_name") local →
  create_google_search_tool E product_info = Ok web →
  Forall (has_str "title") web →
  (search E product_info local_k google_k m kb).2 = Ok (merged, stats) →
  total_count stats = Z.of_nat (length merged)
  ∧ local_count stats = Z.of_nat (length local)
  ∧ sources_local stats = Z.of_nat (length local)
  ∧ 0 ≤ sources_google stats ≤ google_count stats
  ∧ google_count stats ≤ google_k
  ∧ (Z.of_nat (length local) ≤ google_k →
     sources_local stats + sources_google stats = total_count stats)
  ∧ (google_k < Z.of_nat (length local) →
     total_count stats = google_k ∧ sources_google stats = 0
     ∧ total_count stats < sources_local stats + sources_google stats).
Proof.
  intros Hk Hlocal Hnames Hweb Htitles Hsearch.
  destruct (search_stats_spec E product_info local_k google_k m kb local web)
    as (cands & Hcands & Heq); try done.
  rewrite Heq in Hsearch. injection Hsearch as <- <-. cbn [total_count
    local_count sources_local sources_google google_count].
  pose proof (mapM_Ok_length _ _ _ Hcands) as Hlen.
  pose proof (local_candidates_tagged E (suppliers kb) local cands
                (search_local_annotated E _ _ _ _ _ Hlocal) Hcands) as Htag.
  assert (List.filter is_google cands = []) as Hnone.
  { apply filter_none. eapply Forall_impl; [exact Htag|]. by intros c [_ ?]. }
  assert (Z.of_nat (length (fetched_for local web google_k)) ≤ google_k)
    as Hfetched.
  { unfold fetched_for. destruct (_ <? _); simpl; [|lia].
    pose proof (firstn_le_length (Z.to_nat google_k) (tag_google <$> web)).
    lia. }
  destruct (Z.lt_ge_cases (Z.of_nat (length local)) google_k) as [Hlt|Hge].
  - destruct (merged_under_cap_short google_k cands
                (fetched_for local web google_k))
      as (kept & -> & Hsub & _ & _); [lia|].
    assert (List.filter is_google kept = kept) as Hall.
    { apply filter_all, Forall_forall. intros w Hw.
      assert (w ∈ fetched_for local web google_k) as Hin
        by by eapply elem_of_sublist.
      unfold fetched_for in Hin. destruct (_ <? _); [|by apply elem_of_nil in Hin].
      apply elem_of_take in Hin as (i & Hin & _).
      apply list_elem_of_lookup_2, list_elem_of_fmap in Hin as (w0 & -> & _).
      apply tag_google_tagged. }
    rewrite List.filter_app, Hnone, Hall. simpl.
    apply sublist_length in Hsub. rewrite length_app.
    split_and!; try done; try lia.
  - rewrite merged_under_cap_full by lia.
    assert (List.filter is_google (take (Z.to_nat google_k) cands) = [])
      as Hnone'.
    { apply filter_none, Forall_take.
      eapply Forall_impl; [exact Htag|]. by intros c [_ ?]. }
    rewrite Hnone', length_take. simpl.
    split_and!; try done; try lia.
Qed.

(** Every candidate that [search] returns carries its origin: a local one
    the tag of the knowledge base and a float similarity, a web one the
    tag of the web search and no similarity. *)
Theorem search_candidates_tagged
    E product_info local_k google_k (m : R) kb local web merged stats :
  0 ≤ google_k →
  _search_local E product_info local_k m kb = Ok local →
  Forall (has_str "company_name") local →
  create_google_search_tool E product_info = Ok web →
  Forall (has_str "title") web →
  (search E product_info local_k google_k m kb).2 = Ok (merged, stats) →
  Forall tagged_candidate merged.
Proof.
  intros Hk Hlocal Hnames Hweb Htitles Hsearch.
  destruct (search_stats_spec E product_info local_k google_k m kb local web)
    as (cands & Hcands & Heq); try done.
  rewrite Heq in Hsearch. injection Hsearch as <- _.
  pose proof (local_candidates_tagged E (suppliers kb) local cands
                (search_local_annotated E _ _ _ _ _ Hlocal) Hcands) as Htag.
  unfold merged_under_cap. apply Forall_take, Forall_app. split.
  - eapply Forall_impl; [exact Htag|]. by intros c [? _].
  - apply Forall_forall. intros w Hw.
    assert (w ∈ fetched_for local web google_k) as Hin
      by (eapply elem_of_sublist; [exact Hw|apply dedup_new_sublist]).
    unfold fetched_for in Hin. destruct (_ <? _); [|by apply elem_of_nil in Hin].
    apply elem_of_take in Hin as (i & Hin & _).
    apply list_elem_of_lookup_2, list_elem_of_fmap in Hin as (w0 & -> & _).
    apply tag_google_tagged.
Qed.

Lemma search_stats_breakdown_witness :
  total_count {| local_count := 0; google_count := 3; total_count := 2;
                 sources_local := 0; sources_google := 2 |}
    = Z.of_nat (length [tag_google (web_hit "Acme Co");
                        tag_google (web_hit "Bolt Ltd")])
  ∧ local_count {| local_count := 0; google_count := 3; total_count := 2;
                   sources_local := 0; sources_google := 2 |}
      = Z.of_nat (length (@nil Dict))
  ∧ sources_local {| local_count := 0; google_count := 3; total_count := 2;
                     sources_local := 0; sources_google := 2 |}
      = Z.of_nat (length (@nil Dict))
  ∧ 0 ≤ sources_google {| local_count := 0; google_count := 3;
                          total_count := 2; sources_local := 0;
                          sources_google := 2 |}
      ≤ google_count {| local_count := 0; google_count := 3;
                        total_count := 2; sources_local := 0;
                        sources_google := 2 |}
  ∧ google_count {| local_count := 0; google_count := 3; total_count := 2;
                    sources_local := 0; sources_google := 2 |} ≤ 3
  ∧ (Z.of_nat (length (@nil Dict)) ≤ 3 →
     sources_local {| local_count := 0; google_count := 3; total_count := 2;
                      sources_local := 0; sources_google := 2 |}
     + sources_google {| local_count := 0; google_count := 3;
                         total_count := 2; sources_local := 0;
                         sources_google := 2 |}
     = total_count {| local_count := 0; google_count := 3; total_count := 2;
                      sources_local := 0; sources_google := 2 |})
  ∧ (3 < Z.of_nat (length (@nil Dict)) →
     total_count {| local_count := 0; google_count := 3; total_count := 2;
                    sources_local := 0; sources_google := 2 |} = 3
     ∧ sources_google {| local_count := 0; google_count := 3;
                         total_count := 2; sources_local := 0;
                         sources_google := 2 |} = 0
     ∧ total_count {| local_count := 0; google_count := 3; total_count := 2;
                      sources_local := 0; sources_google := 2 |}
       < sources_local {| local_count := 0; google_count := 3;
                          total_count := 2; sources_local := 0;
                          sources_google := 2 |}
         + sources_google {| local_count := 0; google_count := 3;
                             total_count := 2; sources_local := 0;
                             sources_google := 2 |}).
Proof.
  apply (search_stats_breakdown
           (env_at 0 [web_hit "Acme Co"; web_hit "acme co"; web_hit "Bolt Ltd"])
           sample_product 5 3 (6 / 10)%R empty_store []
           [web_hit "Acme Co"; web_hit "acme co"; web_hit "Bolt Ltd"]
           [tag_google (web_hit "Acme Co"); tag_google (web_hit "Bolt Ltd")]).
  - lia.
  - reflexivity.
  - constructor.
  - reflexivity.
  - repeat constructor; by eexists.
  - reflexivity.
Defined.

Lemma search_candidates_tagged_witness :
  Forall tagged_candidate
    [tag_google (web_hit "Acme Co"); tag_google (web_hit "Bolt Ltd")].
Proof.
  apply (search_candidates_tagged
           (env_at 0 [web_hit "Acme Co"; web_hit "acme co"; web_hit "Bolt Ltd"])
           sample_product 5 3 (6 / 10)%R empty_store []
           [web_hit "Acme Co"; web_hit "acme co"; web_hit "Bolt Ltd"]
           [tag_google (web_hit "Acme Co"); tag_google (web_hit "Bolt Ltd")]
           {| local_count := 0; google_count := 3; total_count := 2;
              sources_local := 0; sources_google := 2 |}).
  - lia.
  - reflexivity.
  - constructor.
  - reflexivity.
  - repeat constructor; by eexists.
  - reflexivity.
Defined.

(** ** Saving candidates back *)

Lemma is_google_source s :
  is_google s = true ↔ s !! "source" = Some (VStr "Google搜索").
Proof.
  unfold is_google, get, value_eq_str.
  destruct (s !! "source") as [[| s' | | |]|]; simpl; split; try done.
  - by intros ->%String.eqb_eq.
  - intros [= ->]. apply String.eqb_refl.
Qed.

(** [save_to_knowledge_base] persists web candidates only: every record
    it appends is the metadata of a candidate tagged as coming from the
    web search, there are at most as many of them as such candidates, and
    without such a candidate the store and the files are left alone. *)
Theorem save_persists_web_candidates_only
    E candidates w kb disk kb' disk' (n : Z) :
  save_to_knowledge_base E candidates w (kb, disk) = Ok (kb', disk', n) →
  ∃ ms,
    suppliers kb' = suppliers kb ++ ms
    ∧ Forall (λ metadata, ∃ s,
        s ∈ candidates
        ∧ s !! "source" = Some (VStr "Google搜索")
        ∧ _build_metadata E s = Ok metadata) ms
    ∧ 0 ≤ n ≤ Z.of_nat (length ms)
    ∧ (length ms ≤ length (List.filter is_google candidates))%nat
    ∧ (List.filter is_google candidates = [] →
       kb' = kb ∧ disk' = disk ∧ n = 0).
Proof.
  unfold save_to_knowledge_base.
  change (λ s : Dict, value_eq_str (get s "source" VNone) "Google搜索")
    with is_google.
  destruct (List.filter is_google candidates) as [|s0 new] eqn:Hnew.
  - intros [= <- <- <-]. exists []. rewrite app_nil_r.
    split_and!; done || (simpl; lia).
  - destruct (add_suppliers_batch_inv E (s0 :: new) w kb disk)
      as (ms & n0 & Hn & Hl1 & Hl2 & Hnil & Hfrom & ->).
    assert (Forall (λ metadata, ∃ s,
        s ∈ candidates
        ∧ s !! "source" = Some (VStr "Google搜索")
        ∧ _build_metadata E s = Ok metadata) ms) as Hfrom'.
    { eapply Forall_impl; [exact Hfrom|]. intros metadata (s & Hin & Hm).
      exists s. rewrite <- Hnew in Hin.
      apply list_elem_of_In, filter_In in Hin as [Hin Hg].
      split_and!; [by apply list_elem_of_In|by apply is_google_source|done]. }
    destruct (omap (embedded E) (s0 :: new)) as [|x es].
    + intros [= <- <- <-]. exists []. rewrite app_nil_r.
      rewrite (Hnil eq_refl) in Hn. simpl in *.
      split_and!; try done; lia.
    + destruct (index_add _ _) as [ix|]; simpl; [|done].
      intros [= <- <- <-]. exists ms. simpl in *.
      split_and!; try done; lia.
Qed.

Lemma save_persists_web_candidates_only_witness :
  ∃ ms,
    suppliers (store_of four_suppliers) = suppliers (store_of four_suppliers) ++ ms
    ∧ Forall (λ metadata, ∃ s,
        s ∈ [local_hit "Acme Co"; local_hit "Bolt Ltd"]
        ∧ s !! "source" = Some (VStr "Google搜索")
        ∧ _build_metadata (env_at 0 []) s = Ok metadata) ms
    ∧ 0 ≤ 0 ≤ Z.of_nat (length ms)
    ∧ (length ms
       ≤ length (List.filter is_google
                   [local_hit "Acme Co"; local_hit "Bolt Ltd"]))%nat
    ∧ (List.filter is_google [local_hit "Acme Co"; local_hit "Bolt Ltd"] = [] →
       store_of four_suppliers = store_of four_suppliers
       ∧ no_files = no_files ∧ 0 = 0).
Proof.
  apply (save_persists_web_candidates_only (env_at 0 [])
           [local_hit "Acme Co"; local_hit "Bolt Ltd"] WriteOk
           (store_of four_suppliers) no_files).
  reflexivity.
Defined.

Lemma batch_fold_complete E kb batch xms es ms (n : Z) :
  Forall2 (embeds_as E kb) batch xms →
  foldl (batch_step E) (es, ms, n) batch
    = (es ++ xms.*1, ms ++ xms.*2, n + Z.of_nat (length batch)).
Proof.
  intros Hall. revert es ms n.
  induction Hall as [|s [x metadata] batch xms (Hx & _ & Hm & Hp) _ IH];
    intros es ms n.
  - simpl. rewrite !app_nil_r. f_equal. lia.
  - cbn [foldl]. unfold batch_step at 2. simpl in Hx, Hm.
    rewrite Hx, Hm, Hp, IH. simpl. rewrite <- !app_assoc. simpl.
    f_equal. lia.
Qed.

(** When every web candidate is embedded and recorded without failure,
    [save_to_knowledge_base] appends exactly their vectors and records, in
    order, writes the result and returns their number; candidates of other
    origin play no part. *)
Theorem save_persists_every_web_candidate E candidates w kb disk xms :
  Forall2 (embeds_as E kb) (List.filter is_google candidates) xms →
  xms ≠ [] →
  save_to_knowledge_base E candidates w (kb, disk)
    = Ok (appended_all kb xms, _save_index (appended_all kb xms) w disk,
          Z.of_nat (length xms)).
Proof.
  intros Hall Hne. unfold save_to_knowledge_base.
  change (λ s : Dict, value_eq_str (get s "source" VNone) "Google搜索")
    with is_google.
  pose proof (Forall2_length _ _ _ Hall) as Hlen.
  destruct (List.filter is_google candidates) as [|s0 new] eqn:Hnew.
  { destruct xms; [done|simpl in Hlen; lia]. }
  unfold add_suppliers_batch.
  rewrite (batch_fold_complete E kb _ xms) by done. simpl.
  assert (index_add (index kb) xms.*1
            = Ok {| dim := dim (index kb);
                    vectors := vectors (index kb) ++ xms.*1 |}) as Hadd.
  { unfold index_add.
    assert (forallb (λ x : Vector, (length x =? dim (index kb))%nat) xms.*1
              = true) as ->; [|done].
    apply forallb_forall. intros x Hx%list_elem_of_In.
    apply list_elem_of_fmap in Hx as ([x' m'] & -> & Hin). simpl.
    apply Nat.eqb_eq.
    clear Hnew Hlen Hne. induction Hall as [|? ? ? ? (_ & Hd & _) _ IH].
    - by apply elem_of_nil in Hin.
    - apply elem_of_cons in Hin as [<-|Hin]; [done|by apply IH]. }
  destruct xms as [|[x0 m0] xms']; [done|].
  simpl in *. rewrite Hadd. simpl. unfold appended_all. simpl.
  repeat f_equal; lia.
Qed.

Lemma save_persists_every_web_candidate_witness :
  save_to_knowledge_base (env_at 0 [])
    [local_hit "Cobalt Inc"; tag_google (web_hit "Acme Co");
     local_hit "Delta LLC"; tag_google (web_hit "Bolt Ltd")]
    WriteOk (empty_store, no_files)
  = Ok (appended_all empty_store
          [(axis_vec 0, record_of "Acme Co"); (axis_vec 0, record_of "Bolt Ltd")],
        _save_index
          (appended_all empty_store
             [(axis_vec 0, record_of "Acme Co");
              (axis_vec 0, record_of "Bolt Ltd")]) WriteOk no_files,
        Z.of_nat (length [(axis_vec 0, record_of "Acme Co");
                          (axis_vec 0, record_of "Bolt Ltd")])).
Proof.
  apply (save_persists_every_web_candidate (env_at 0 [])
           [local_hit "Cobalt Inc"; tag_google (web_hit "Acme Co");
            local_hit "Delta LLC"; tag_google (web_hit "Bolt Ltd")]
           WriteOk empty_store no_files
           [(axis_vec 0, record_of "Acme Co");
            (axis_vec 0, record_of "Bolt Ltd")]).
  - repeat constructor; try reflexivity; apply length_axis_vec.
  - done.
Defined.

(** ** Cleaning the answer of the language model *)




Lemma lstrip_starts c l r : lstrip l = c :: r → is_space c = false.
Proof.
  induction l as [|a l IH]; simpl; [done|].
  destruct (is_space a) eqn:Ha; [done|]. by intros [= <- _].
Qed.

Lemma lstrip_idem l : lstrip (lstrip l) = lstrip l.
Proof.
  destruct (lstrip l) as [|c r] eqn:Hl; [done|].
  apply lstrip_starts in Hl. simpl. by rewrite Hl.
Qed.


Lemma rstrip_prefix l : rstrip l `prefix_of` l.
Proof.
  unfold rstrip.
  assert (∀ l', lstrip l' `suffix_of` l') as Hsuf.
  { induction l' as [|a l' IH]; simpl; [done|].
    destruct (is_space a); [by apply suffix_cons_r|done]. }
  destruct (Hsuf (reverse l)) as [k Hk].
  exists (reverse k).
  by rewrite <- reverse_app, <- Hk, reverse_involutive.
Qed.

(** What [_clean_json_response] returns has no white space at either
    end. *)
Theorem clean_json_response_stripped content :
  stripped (String.list_ascii_of_string (_clean_json_response content)).
Proof.
  unfold _clean_json_response.
  rewrite String.list_ascii_of_string_of_list_ascii.
  set (l := if bool_decide (fence `suffix_of` _) then _ else _).
  unfold strip, stripped. split.
  - destruct (rstrip_prefix (lstrip l)) as [k Hk].
    destruct (rstrip (lstrip l)) as [|c r] eqn:Hr; [done|].
    assert (is_space c = false) as Hc.
    { destruct (lstrip l) as [|c' r'] eqn:Hl; [done|].
      injection Hk as -> _. by apply lstrip_starts in Hl. }
    simpl. by rewrite Hc.
  - unfold rstrip. by rewrite reverse_involutive, lstrip_idem.
Qed.




(** ** The fallback ranking *)

Lemma fallback_from_spec (i : Z) suppliers :
  match fallback_from i suppliers with
  | Ok ranked =>
      length ranked = length suppliers
      ∧ ∀ (j : nat) s, suppliers !! j = Some s →
          ∃ r, ranked !! j = Some r
               ∧ r !! "title" = s !! "title"
               ∧ r !! "link" = s !! "link"
               ∧ r !! "score" = Some (VInt (60 - (i + Z.of_nat j) * 5))
  | Raise e => e = KeyError ∧ Exists lacks_title_or_link suppliers
  end.
Proof.
  revert i. induction suppliers as [|s rest IH]; intros i; simpl.
  - split; [done|]. intros j s' Hj. by rewrite lookup_nil in Hj.
  - unfold getitem.
    destruct (s !! "title") as [title|] eqn:Ht; simpl;
      [|split; [done|apply Exists_cons_hd; by left]].
    destruct (s !! "link") as [link|] eqn:Hl; simpl;
      [|split; [done|apply Exists_cons_hd; by right]].
    specialize (IH (i + 1)).
    destruct (fallback_from (i + 1) rest) as [entries|e]; simpl.
    + destruct IH as [Hlen Hentries]. split; [by rewrite Hlen|].
      intros [|j] s' Hj; simpl in *.
      * injection Hj as <-. eexists. split; [done|].
        rewrite Ht, Hl. split_and!; try reflexivity.
        replace (i + Z.of_nat 0) with i by lia. reflexivity.
      * destruct (Hentries j s' Hj) as (r & Hr & H1 & H2 & H3).
        exists r. split_and!; try done.
        rewrite H3. do 3 f_equal. lia.
    + destruct IH as [-> Hex]. split; [done|by apply Exists_cons_tl].
Qed.

(** [_fallback_ranking] looks at the first three search results only: it
    keeps their titles and links in order and scores them 60, 55 and 50;
    it fails, with a [KeyError], exactly when one of these three has no
    title or no link. *)
Theorem fallback_ranking_top_three suppliers :
  match _fallback_ranking suppliers with
  | Ok ranked =>
      length ranked = (3 `min` length suppliers)%nat
      ∧ ∀ (j : nat) s, (j < 3)%nat → suppliers !! j = Some s →
          ∃ r, ranked !! j = Some r
               ∧ r !! "title" = s !! "title"
               ∧ r !! "link" = s !! "link"
               ∧ r !! "score" = Some (VInt (60 - Z.of_nat j * 5))
  | Raise e =>
      e = KeyError ∧ Exists lacks_title_or_link (take 3 suppliers)
  end.
Proof.
  unfold _fallback_ranking.
  pose proof (fallback_from_spec 0 (take 3 suppliers)) as Hspec.
  destruct (fallback_from 0 (take 3 suppliers)) as [ranked|e]; [|done].
  destruct Hspec as [Hlen Hentries]. split.
  - by rewrite Hlen, length_take.
  - intros j s Hj Hs. apply Hentries. by rewrite lookup_take_lt.
Qed.

(** ** Which candidates are sent to the contact search *)






(** ** Lock-step with well-formed contacts *)

Lemma build_metadata_of_contact E supplier :
  supplier !! "contact" = None
  ∨ (∃ d, supplier !! "contact" = Some (VDict d)) →
  ∃ metadata, _build_metadata E supplier = Ok metadata.
Proof.
  unfold _build_metadata, get.
  intros [->|[d ->]]; simpl; by eexists.
Qed.

(** As long as the ["contact"] entry of every supplier is missing or a
    dictionary, [add_supplier] and [add_suppliers_batch] keep as many
    records as vectors, whether the embedding, the progress line or the
    write fails or not. *)
Theorem lockstep_kept_with_dict_contacts E supplier batch w kb disk :
  lockstep kb →
  Forall (λ s, s !! "contact" = None
               ∨ ∃ d, s !! "contact" = Some (VDict d)) (supplier :: batch) →
  lockstep (add_supplier E supplier w (kb, disk)).1.1
  ∧ match add_suppliers_batch E batch w (kb, disk) with
    | Ok (kb', _, _) => lockstep kb'
    | Raise _ => True
    end.
Proof.
  intros Hlock [Hs Hbatch]%Forall_cons. split.
  - destruct (build_metadata_of_contact E supplier Hs) as [metadata Hm].
    by eapply add_supplier_lockstep.
  - destruct (add_suppliers_batch E batch w (kb, disk))
      as [[[kb' disk'] n]|] eqn:Hb; [|done].
    eapply (add_suppliers_batch_lockstep E batch); [|done|exact Hb].
    eapply Forall_impl; [exact Hbatch|].
    intros s. apply build_metadata_of_contact.
Qed.

Lemma lockstep_kept_with_dict_contacts_witness :
  lockstep (add_supplier (env_at 0 []) supplier_without_title WriteOk
              (store_of [record_of "Acme Co"], no_files)).1.1
  ∧ match add_suppliers_batch (env_at 0 [])
            [web_hit "Bolt Ltd"; contacted_hit "Cobalt Inc" "info@cobalt.example"]
            WriteOk (store_of [record_of "Acme Co"], no_files) with
    | Ok (kb', _, _) => lockstep kb'
    | Raise _ => True
    end.
Proof.
  apply (lockstep_kept_with_dict_contacts (env_at 0 []) supplier_without_title
           [web_hit "Bolt Ltd"; contacted_hit "Cobalt Inc" "info@cobalt.example"]
           WriteOk (store_of [record_of "Acme Co"]) no_files).
  - reflexivity.
  - repeat apply Forall_cons_2; try apply Forall_nil_2.
    + by left.
    + by left.
    + right. by eexists.
Defined.
